(** * Planning-Assistant: the broiler derivation engine

    A shallow embedding of the numeric module of the broiler planning page
    ([computeBroilerResults], [invertSn3ToSn1], [buildFarmScenarios]) and of
    the types it works on ([UnitsModeKey], [BroilerInputs], [BroilerConfig],
    [BroilerResults], [FarmsScenarioRow]).

    Numbers.  A TypeScript [number] is modelled as an exact rational in
    canonical form ([Qc]), so arithmetic neither rounds nor overflows and
    every number is finite; [NaN] and the infinities have no counterpart.
    [number | null] and [number | undefined] are both [option number]:
    the source only ever tests them with [== null] / [!= null], which does not
    tell [null] from [undefined]. *)

From Stdlib Require Import ZArith QArith Qcanon Qround Bool String List Lia.
Import ListNotations.

Local Open Scope Qc_scope.

(** ** Numbers *)

Abbreviation number := Qc.

(** The literal [n / d]. *)
Definition lit (n : Z) (d : positive) : number := Q2Qc (n # d).

Definition n100 : number := lit 100 1.
Definition n1000 : number := lit 1000 1.
Definition n365 : number := lit 365 1.
Definition n365_25 : number := lit 1461 4.

(** [x === y], [x <= y], [x < y] on numbers, as booleans. *)
Definition eqb (x y : number) : bool := Qeq_bool x y.
Definition leb (x y : number) : bool := Qle_bool x y.
Definition ltb (x y : number) : bool := negb (Qle_bool y x).

Infix "=?" := eqb (at level 70, no associativity) : Qc_scope.
Infix "<=?" := leb (at level 70, no associativity) : Qc_scope.
Infix "<?" := ltb (at level 70, no associativity) : Qc_scope.

(** [Math.floor] and [Math.ceil]. *)
Definition Math_floor (x : number) : number := Q2Qc (inject_Z (Qfloor x)).
Definition Math_ceil (x : number) : number := Q2Qc (inject_Z (Qceiling x)).

(** [Number.isFinite]: every number of the model is a finite rational. *)
Definition Number_isFinite (_ : number) : bool := true.

(** ** Types (types.ts) *)

Inductive UnitsModeKey : Type :=
| tonsPerYear_kgPerBird
| kgPerYear_kgPerBird
| meatTonsWithYield.

Record BroilerInputs : Type := mkInputs {
  sn1TargetBroilerMeat : option number;
  sn2HarvestBirdAvgWeight : option number;
  sn4PlannedMortality : option number;
  sn6CycleTimeDays : option number;
  sn10FarmCapacity : option number;
  sn11NumberOfHouses : option number;
  sn12HouseArea : option number;
  yieldPercent : option number
}.

Record BroilerConfig : Type := mkConfig {
  unitsMode : UnitsModeKey;
  useYield : bool;
  useFullCyclesOnly : bool;
  useLeapYearCycles : bool;
  mortalityAsPercent : bool
}.

Record BroilerResults : Type := mkResults {
  sn3HarvestBirdsNumber : option number;
  sn5OverallPlacement : option number;
  sn7CyclesPerYear : option number;
  sn8HarvestPerCycle : option number;
  sn9PlacementPerCycle : option number;
  sn13Density : option number;
  sn14NumberOfFarms : option number;
  hasDivisionByZero : bool
}.

(** ** The division flag

    [computeBroilerResults] declares [let hasDivisionByZero = false] and
    assigns [true] to it from many branches.  The mutable local is threaded
    explicitly: a computation takes the current flag and returns its value
    with the new flag. *)

Definition Flag (A : Type) : Type := bool -> A * bool.

Definition ret {A} (a : A) : Flag A := fun f => (a, f).

Definition bind {A B} (m : Flag A) (k : A -> Flag B) : Flag B :=
  fun f => let (a, f') := m f in k a f'.

(** [hasDivisionByZero = true;] *)
Definition raiseFlag : Flag unit := fun _ => (tt, true).

(** Reading [hasDivisionByZero]. *)
Definition readFlag : Flag bool := fun f => (f, f).

Notation "x <- m ;; k" := (bind m (fun x => k))
  (at level 61, m at next level, right associativity).
Notation "m ;;; k" := (bind m (fun _ => k))
  (at level 61, right associativity).

(** ** computeBroilerResults *)

Definition safeNumber (value : option number) : option number :=
  match value with
  | Some v => if Number_isFinite v then Some v else None
  | None => None
  end.

Definition sanitize (rawInputs : BroilerInputs) : BroilerInputs :=
  {| sn1TargetBroilerMeat := safeNumber (sn1TargetBroilerMeat rawInputs);
     sn2HarvestBirdAvgWeight := safeNumber (sn2HarvestBirdAvgWeight rawInputs);
     sn4PlannedMortality := safeNumber (sn4PlannedMortality rawInputs);
     sn6CycleTimeDays := safeNumber (sn6CycleTimeDays rawInputs);
     sn10FarmCapacity := safeNumber (sn10FarmCapacity rawInputs);
     sn11NumberOfHouses := safeNumber (sn11NumberOfHouses rawInputs);
     sn12HouseArea := safeNumber (sn12HouseArea rawInputs);
     yieldPercent := safeNumber (yieldPercent rawInputs) |}.

(** The immediately-invoked arrow function bound to [mortalityFraction]. *)
Definition mortalityFraction (inputs : BroilerInputs) (config : BroilerConfig)
  : option number :=
  match sn4PlannedMortality inputs with
  | None => None
  | Some raw =>
      if mortalityAsPercent config then
        if raw <=? 0 then Some 0 else Some (raw / n100)
      else Some raw
  end.

Definition mortalityValid (mortalityFraction : option number) : bool :=
  match mortalityFraction with
  | None => true
  | Some m => (0 <=? m) && (m <? 1)
  end.

(** SN3: the inner [birds] of the non-zero-weight branch. *)
Definition birdsFor (inputs : BroilerInputs) (config : BroilerConfig)
  (sn1 sn2 : number) : option number :=
  match unitsMode config with
  | tonsPerYear_kgPerBird => Some ((sn1 * n1000) / sn2)
  | kgPerYear_kgPerBird => Some (sn1 / sn2)
  | meatTonsWithYield =>
      if useYield config then
        let yieldPct :=
          match yieldPercent inputs with
          | Some y => if 0 <? y then Some y else None
          | None => None
          end in
        match yieldPct with
        | None => None
        | Some yieldPct => Some ((sn1 * n1000 * (n100 / yieldPct)) / sn2)
        end
      else None
  end.

Definition stepSn3 (inputs : BroilerInputs) (config : BroilerConfig)
  : Flag (option number) :=
  match sn1TargetBroilerMeat inputs, sn2HarvestBirdAvgWeight inputs with
  | Some sn1, Some sn2 =>
      if sn2 =? 0 then raiseFlag ;;; ret None
      else
        match birdsFor inputs config sn1 sn2 with
        | Some birds => if Number_isFinite birds then ret (Some birds) else ret None
        | None => ret None
        end
  | _, _ => ret None
  end.

(** SN5 and SN9 share their shape: a value over [1 - mortalityFraction]. *)
Definition stepSn5 (sn3 mortalityFraction : option number)
  : Flag (option number) :=
  match sn3, mortalityFraction with
  | Some sn3, Some m =>
      let denom := 1 - m in
      if denom =? 0 then raiseFlag ;;; ret None
      else ret (Some (sn3 / denom))
  | _, _ => ret None
  end.

Definition stepSn7 (inputs : BroilerInputs) (config : BroilerConfig)
  : Flag (option number) :=
  match sn6CycleTimeDays inputs with
  | Some denom =>
      let daysPerYear := if useLeapYearCycles config then n365_25 else n365 in
      if denom =? 0 then raiseFlag ;;; ret None
      else
        let value := daysPerYear / denom in
        let value := if useFullCyclesOnly config then Math_floor value else value in
        ret (Some value)
  | None => ret None
  end.

Definition stepSn8 (sn3 sn7 : option number) : Flag (option number) :=
  match sn3, sn7 with
  | Some sn3, Some sn7 =>
      if sn7 =? 0 then raiseFlag ;;; ret None
      else ret (Some (sn3 / sn7))
  | _, _ => ret None
  end.

Definition stepSn9 (sn8 mortalityFraction : option number)
  : Flag (option number) :=
  match sn8, mortalityFraction with
  | Some sn8, Some m =>
      let denom := 1 - m in
      if denom =? 0 then raiseFlag ;;; ret None
      else ret (Some (sn8 / denom))
  | _, _ => ret None
  end.

Definition stepSn13 (inputs : BroilerInputs) : Flag (option number) :=
  match sn10FarmCapacity inputs, sn11NumberOfHouses inputs,
        sn12HouseArea inputs with
  | Some capacity, Some houses, Some area =>
      let denom := houses * area in
      if denom =? 0 then raiseFlag ;;; ret None
      else ret (Some (capacity / denom))
  | _, _, _ => ret None
  end.

Definition stepSn14 (sn9 : option number) (inputs : BroilerInputs)
  : Flag (option number) :=
  match sn9, sn10FarmCapacity inputs with
  | Some sn9, Some denom =>
      if denom =? 0 then raiseFlag ;;; ret None
      else ret (Some (sn9 / denom))
  | _, _ => ret None
  end.

(** [if (!mortalityValid) hasDivisionByZero = true;] *)
Definition stepMortality (valid : bool) : Flag unit :=
  if valid then ret tt else raiseFlag.

Definition computeBroilerResults (rawInputs : BroilerInputs)
  (config : BroilerConfig) : BroilerResults :=
  let inputs := sanitize rawInputs in
  let mortalityFraction := mortalityFraction inputs config in
  let mortalityValid := mortalityValid mortalityFraction in
  let body :=
    sn3HarvestBirdsNumber <- stepSn3 inputs config ;;
    sn5OverallPlacement <- stepSn5 sn3HarvestBirdsNumber mortalityFraction ;;
    sn7CyclesPerYear <- stepSn7 inputs config ;;
    sn8HarvestPerCycle <- stepSn8 sn3HarvestBirdsNumber sn7CyclesPerYear ;;
    sn9PlacementPerCycle <- stepSn9 sn8HarvestPerCycle mortalityFraction ;;
    sn13Density <- stepSn13 inputs ;;
    sn14NumberOfFarms <- stepSn14 sn9PlacementPerCycle inputs ;;
    stepMortality mortalityValid ;;;
    hasDivisionByZero <- readFlag ;;
    ret {| sn3HarvestBirdsNumber := sn3HarvestBirdsNumber;
           sn5OverallPlacement := sn5OverallPlacement;
           sn7CyclesPerYear := sn7CyclesPerYear;
           sn8HarvestPerCycle := sn8HarvestPerCycle;
           sn9PlacementPerCycle := sn9PlacementPerCycle;
           sn13Density := sn13Density;
           sn14NumberOfFarms := sn14NumberOfFarms;
           hasDivisionByZero := hasDivisionByZero |} in
  (* [let hasDivisionByZero = false;] *)
  fst (body false).

(** ** invertSn3ToSn1 *)

Definition invertSn3ToSn1 (sn3HarvestBirdsNumber : number)
  (inputs : BroilerInputs) (config : BroilerConfig) : option number :=
  match sn2HarvestBirdAvgWeight inputs with
  | None => None
  | Some sn2 =>
      if sn2 =? 0 then None
      else
        match unitsMode config with
        | tonsPerYear_kgPerBird => Some ((sn3HarvestBirdsNumber * sn2) / n1000)
        | kgPerYear_kgPerBird => Some (sn3HarvestBirdsNumber * sn2)
        | meatTonsWithYield =>
            if useYield config then
              match yieldPercent inputs with
              | None => None
              | Some yieldPercent =>
                  (* [!yieldPercent || yieldPercent <= 0] *)
                  if (yieldPercent =? 0) || (yieldPercent <=? 0) then None
                  else Some ((sn3HarvestBirdsNumber * sn2 * yieldPercent)
                             / (n100 * n1000))
              end
            else None
        end
  end.

(** ** buildFarmScenarios *)

Module FarmRow.
Record FarmsScenarioRow : Type := mk {
  label : string;
  farms : option number;
  sn1TargetBroilerMeat : option number;
  sn3HarvestBirdsNumber : option number;
  sn9PlacementPerCycle : option number
}.
End FarmRow.

(** The immediately-invoked arrow function bound to [mFraction]. *)
Definition mFraction (inputs : BroilerInputs) (config : BroilerConfig)
  : option number :=
  match sn4PlannedMortality inputs with
  | None => None
  | Some raw => if mortalityAsPercent config then Some (raw / n100) else Some raw
  end.

Section Scenarios.

Variable inputs : BroilerInputs.
Variable config : BroilerConfig.
Variable baseResults : BroilerResults.

Let sn7 := sn7CyclesPerYear baseResults.
Let sn10 := sn10FarmCapacity inputs.
Let mFrac := mFraction inputs config.

(** The row returned when the guard of [makeRowForFarms] holds. *)
Definition skippedRow (label : string) (farms : option number)
  : FarmRow.FarmsScenarioRow :=
  {| FarmRow.label := label;
     FarmRow.farms := farms;
     FarmRow.sn1TargetBroilerMeat := None;
     FarmRow.sn3HarvestBirdsNumber := None;
     FarmRow.sn9PlacementPerCycle := None |}.

Definition makeRowForFarms (label : string) (farms : option number)
  : FarmRow.FarmsScenarioRow :=
  match farms, sn10, mFrac, sn7 with
  | Some f, Some sn10, Some mFraction, Some sn7 =>
      if negb (Number_isFinite f) || (f <=? 0) || (sn10 <=? 0)
         || (mFraction <? 0) || (1 <=? mFraction) || (sn7 <=? 0)
      then skippedRow label farms
      else
        let sn9PlacementPerCycle := f * sn10 in
        let sn8HarvestPerCycle := sn9PlacementPerCycle * (1 - mFraction) in
        let sn3HarvestBirdsNumber := sn8HarvestPerCycle * sn7 in
        let sn1TargetBroilerMeat :=
          invertSn3ToSn1 sn3HarvestBirdsNumber inputs config in
        {| FarmRow.label := label;
           FarmRow.farms := Some f;
           FarmRow.sn1TargetBroilerMeat := sn1TargetBroilerMeat;
           FarmRow.sn3HarvestBirdsNumber := Some sn3HarvestBirdsNumber;
           FarmRow.sn9PlacementPerCycle := Some sn9PlacementPerCycle |}
  | _, _, _, _ => skippedRow label farms
  end.

Definition buildFarmScenarios : list FarmRow.FarmsScenarioRow :=
  let baseFarms := sn14NumberOfFarms baseResults in
  [ makeRowForFarms "Base (exact farms)" baseFarms;
    makeRowForFarms "Rounded up farms" (option_map Math_ceil baseFarms);
    makeRowForFarms "Floored farms" (option_map Math_floor baseFarms) ].

End Scenarios.

(** ** Sample scenarios

    A fully supplied scenario (500 t/year, 2.2 kg/bird, 5 % mortality,
    42-day cycles, farms of 20000 birds in 10 houses of 1000 m2, 70 % yield)
    and the variations of it that the properties below are evaluated on. *)

Definition sampleInputs : BroilerInputs :=
  {| sn1TargetBroilerMeat := Some (lit 500 1);
     sn2HarvestBirdAvgWeight := Some (lit 22 10);
     sn4PlannedMortality := Some (lit 5 1);
     sn6CycleTimeDays := Some (lit 42 1);
     sn10FarmCapacity := Some (lit 20000 1);
     sn11NumberOfHouses := Some (lit 10 1);
     sn12HouseArea := Some (lit 1000 1);
     yieldPercent := Some (lit 70 1) |}.

Definition sampleConfig : BroilerConfig :=
  {| unitsMode := tonsPerYear_kgPerBird;
     useYield := false;
     useFullCyclesOnly := false;
     useLeapYearCycles := false;
     mortalityAsPercent := true |}.

Definition withMortality (m : option number) (i : BroilerInputs) : BroilerInputs :=
  {| sn1TargetBroilerMeat := sn1TargetBroilerMeat i;
     sn2HarvestBirdAvgWeight := sn2HarvestBirdAvgWeight i;
     sn4PlannedMortality := m;
     sn6CycleTimeDays := sn6CycleTimeDays i;
     sn10FarmCapacity := sn10FarmCapacity i;
     sn11NumberOfHouses := sn11NumberOfHouses i;
     sn12HouseArea := sn12HouseArea i;
     yieldPercent := yieldPercent i |}.

Definition withCycleDays (d : option number) (i : BroilerInputs) : BroilerInputs :=
  {| sn1TargetBroilerMeat := sn1TargetBroilerMeat i;
     sn2HarvestBirdAvgWeight := sn2HarvestBirdAvgWeight i;
     sn4PlannedMortality := sn4PlannedMortality i;
     sn6CycleTimeDays := d;
     sn10FarmCapacity := sn10FarmCapacity i;
     sn11NumberOfHouses := sn11NumberOfHouses i;
     sn12HouseArea := sn12HouseArea i;
     yieldPercent := yieldPercent i |}.

Definition withCapacity (cap : option number) (i : BroilerInputs) : BroilerInputs :=
  {| sn1TargetBroilerMeat := sn1TargetBroilerMeat i;
     sn2HarvestBirdAvgWeight := sn2HarvestBirdAvgWeight i;
     sn4PlannedMortality := sn4PlannedMortality i;
     sn6CycleTimeDays := sn6CycleTimeDays i;
     sn10FarmCapacity := cap;
     sn11NumberOfHouses := sn11NumberOfHouses i;
     sn12HouseArea := sn12HouseArea i;
     yieldPercent := yieldPercent i |}.

Definition withYield (y : option number) (i : BroilerInputs) : BroilerInputs :=
  {| sn1TargetBroilerMeat := sn1TargetBroilerMeat i;
     sn2HarvestBirdAvgWeight := sn2HarvestBirdAvgWeight i;
     sn4PlannedMortality := sn4PlannedMortality i;
     sn6CycleTimeDays := sn6CycleTimeDays i;
     sn10FarmCapacity := sn10FarmCapacity i;
     sn11NumberOfHouses := sn11NumberOfHouses i;
     sn12HouseArea := sn12HouseArea i;
     yieldPercent := y |}.

Definition withUnits (u : UnitsModeKey) (y : bool) (c : BroilerConfig) : BroilerConfig :=
  {| unitsMode := u;
     useYield := y;
     useFullCyclesOnly := useFullCyclesOnly c;
     useLeapYearCycles := useLeapYearCycles c;
     mortalityAsPercent := mortalityAsPercent c |}.

Definition withCycleToggles (whole leap : bool) (c : BroilerConfig) : BroilerConfig :=
  {| unitsMode := unitsMode c;
     useYield := useYield c;
     useFullCyclesOnly := whole;
     useLeapYearCycles := leap;
     mortalityAsPercent := mortalityAsPercent c |}.

(** ** Reading a step

    The value a step yields and whether it raises the flag, both read off a
    run that starts with the flag clear; a step is regular when that is all
    there is to it: its value does not depend on the incoming flag, and it
    never clears the flag. *)

Definition value {A} (m : Flag A) : A := fst (m false).
Definition raises {A} (m : Flag A) : bool := snd (m false).

Definition regular {A} (m : Flag A) : Prop :=
  forall f, m f = (value m, f || raises m).


(** ** Withdrawing inputs

    [withdrawn a b]: [a] is [b], or [b] with the value taken away.
    [fewerInputs i' i]: the scenario [i'] is [i] with some of its fields
    left empty. *)

Definition withdrawn {A} (a b : option A) : Prop := a = None \/ a = b.

Definition fewerInputs (i' i : BroilerInputs) : Prop :=
  withdrawn (sn1TargetBroilerMeat i') (sn1TargetBroilerMeat i)
  /\ withdrawn (sn2HarvestBirdAvgWeight i') (sn2HarvestBirdAvgWeight i)
  /\ withdrawn (sn4PlannedMortality i') (sn4PlannedMortality i)
  /\ withdrawn (sn6CycleTimeDays i') (sn6CycleTimeDays i)
  /\ withdrawn (sn10FarmCapacity i') (sn10FarmCapacity i)
  /\ withdrawn (sn11NumberOfHouses i') (sn11NumberOfHouses i)
  /\ withdrawn (sn12HouseArea i') (sn12HouseArea i)
  /\ withdrawn (yieldPercent i') (yieldPercent i).

(** A step that [quiet]ly yields nothing leaves the flag alone. *)
Definition quiet (m : Flag (option number)) : Prop :=
  value m = None /\ raises m = false.

(** [m'] yields what [m] yields or nothing, and raises only if [m] does. *)
Definition below (m' m : Flag (option number)) : Prop :=
  withdrawn (value m') (value m) /\ (raises m' = true -> raises m = true).

(** The scenario with nothing supplied yet. *)
Definition emptyInputs : BroilerInputs :=
  mkInputs None None None None None None None None.

(** ** The guard of a scenario row

    The conditions under which [makeRowForFarms] goes on to compute a row:
    a farm count that is present and positive, a positive capacity, a
    mortality fraction (as [buildFarmScenarios] normalizes it) in [0, 1) and
    a positive cycles-per-year. *)

Definition rowComputable (inputs : BroilerInputs) (config : BroilerConfig)
  (baseResults : BroilerResults) (farms : option number) : Prop :=
  (exists f, farms = Some f /\ 0 < f)
  /\ (exists cap, sn10FarmCapacity inputs = Some cap /\ 0 < cap)
  /\ (exists m, mFraction inputs config = Some m /\ 0 <= m /\ m < 1)
  /\ (exists s, sn7CyclesPerYear baseResults = Some s /\ 0 < s).

(** ** The page (BroilerScenarioPage.tsx)

    The parts of the planning page that compute: [validate], the column
    builder [buildCalcForScenario] with the constants it closes over, and
    the text of the CSV export.  A JavaScript string is the list of its
    UTF-16 code units; object keys and messages, which are ASCII literals in
    the source, are [string]s. *)

Abbreviation jsstring := (list N).

Inductive TimeHorizon : Type :=
| year
| threeYears
| customDays.

Module Scenario.
Record BroilerScenario : Type := mk {
  id : jsstring;
  name : jsstring;
  description : option jsstring;
  timeHorizon : TimeHorizon;
  customDays : option number;
  createdAt : jsstring;
  inputs : BroilerInputs;
  config : BroilerConfig
}.
End Scenario.

(** What [String.prototype.trim] strips: WhiteSpace (TAB, VT, FF, ZWNBSP
    and the space separators) and LineTerminator (LF, CR, LS, PS). *)
Definition isWhiteSpaceOrLineTerminator (c : N) : bool :=
  (N.eqb c 9 || N.eqb c 10 || N.eqb c 11 || N.eqb c 12 || N.eqb c 13
   || N.eqb c 32 || N.eqb c 160 || N.eqb c 5760
   || (N.leb 8192 c && N.leb c 8202)
   || N.eqb c 8232 || N.eqb c 8233 || N.eqb c 8239 || N.eqb c 8287
   || N.eqb c 12288 || N.eqb c 65279)%bool.

Fixpoint trimStart (s : jsstring) : jsstring :=
  match s with
  | [] => []
  | c :: rest => if isWhiteSpaceOrLineTerminator c then trimStart rest else s
  end.

Definition trim (s : jsstring) : jsstring :=
  rev (trimStart (rev (trimStart s))).

(** [errors[key] = message] on the [Record<string, string>] of [validate],
    kept in insertion order. *)
Definition setError (errors : list (string * string)) (key message : string)
  : list (string * string) :=
  if existsb (fun kv => String.eqb (fst kv) key) errors
  then map (fun kv => if String.eqb (fst kv) key then (key, message) else kv)
         errors
  else errors ++ [(key, message)].

(** [validate]: the errors it hands to [setValidationErrors], and its
    result [Object.keys(errors).length === 0]. *)
Definition validate (scenario : Scenario.BroilerScenario)
  : list (string * string) * bool :=
  let i := Scenario.inputs scenario in
  let c := Scenario.config scenario in
  let errors : list (string * string) := [] in
  let errors :=
    match trim (Scenario.name scenario) with
    | [] => setError errors "scenarioName" "Scenario name is required."
    | _ :: _ => errors
    end in
  let errors :=
    match sn4PlannedMortality i with
    | Some m =>
        if mortalityAsPercent c then
          if (m <? 0) || (n100 <=? m) then
            setError errors "sn4PlannedMortality"
              "Mortality must be between 0 and below 100 when using percent mode."
          else errors
        else if (m <? 0) || (1 <=? m) then
          setError errors "sn4PlannedMortality"
            "Mortality must be between 0 and below 1 when using fraction mode."
        else errors
    | None => errors
    end in
  let errors :=
    fold_left
      (fun errors (kv : string * option number) =>
         match snd kv with
         | Some value =>
             if value <=? 0
             then setError errors (fst kv) "Value must be greater than zero."
             else errors
         | None => errors
         end)
      [ ("sn6CycleTimeDays"%string, sn6CycleTimeDays i);
        ("sn10FarmCapacity"%string, sn10FarmCapacity i);
        ("sn11NumberOfHouses"%string, sn11NumberOfHouses i);
        ("sn12HouseArea"%string, sn12HouseArea i) ]
      errors in
  let errors :=
    if useYield c then
      match yieldPercent i with
      | None => setError errors "yieldPercent" "Yield% must be between 0 and 100."
      | Some y =>
          if (y <=? 0) || (n100 <? y)
          then setError errors "yieldPercent" "Yield% must be between 0 and 100."
          else errors
      end
    else errors in
  (errors, match errors with [] => true | _ :: _ => false end).

(** The object [buildCalcForScenario] returns: one column of the results
    table. *)
Module Calc.
Record Column : Type := mk {
  sn1 : option number;
  sn3 : option number;
  sn4 : option number;
  sn6 : option number;
  sn10 : option number;
  sn11 : option number;
  sn12 : option number;
  sn5 : option number;
  sn7 : option number;
  sn8 : option number;
  sn9 : option number;
  sn13 : option number;
  sn14 : option number
}.
End Calc.

Module Page.

(** [results], [farmScenarios] and the three rows picked out of it
    ([farmScenarios[k]] is [undefined] past the end). *)
Definition results (scenario : Scenario.BroilerScenario) : BroilerResults :=
  computeBroilerResults (Scenario.inputs scenario) (Scenario.config scenario).

Definition farmScenarios (scenario : Scenario.BroilerScenario)
  : list FarmRow.FarmsScenarioRow :=
  buildFarmScenarios (Scenario.inputs scenario) (Scenario.config scenario)
    (results scenario).

Definition baseScenario (scenario : Scenario.BroilerScenario)
  : option FarmRow.FarmsScenarioRow := nth_error (farmScenarios scenario) 0.

Definition roundedScenario (scenario : Scenario.BroilerScenario)
  : option FarmRow.FarmsScenarioRow := nth_error (farmScenarios scenario) 1.

Definition flooredScenario (scenario : Scenario.BroilerScenario)
  : option FarmRow.FarmsScenarioRow := nth_error (farmScenarios scenario) 2.

Definition mortalityFraction (scenario : Scenario.BroilerScenario)
  : option number :=
  match sn4PlannedMortality (Scenario.inputs scenario) with
  | None => None
  | Some mortRaw =>
      if mortalityAsPercent (Scenario.config scenario)
      then Some (mortRaw / n100)
      else Some mortRaw
  end.

Definition sn7 (scenario : Scenario.BroilerScenario) : option number :=
  sn7CyclesPerYear (results scenario).

(** [scenarioRow?.field ?? null]. *)
Definition field (scenarioRow : option FarmRow.FarmsScenarioRow)
  (get : FarmRow.FarmsScenarioRow -> option number) : option number :=
  match scenarioRow with
  | Some row => get row
  | None => None
  end.

Definition buildCalcForScenario (scenario : Scenario.BroilerScenario)
  (scenarioRow : option FarmRow.FarmsScenarioRow) : Calc.Column :=
  let inputs := Scenario.inputs scenario in
  let sn1 := field scenarioRow FarmRow.sn1TargetBroilerMeat in
  let sn3 := field scenarioRow FarmRow.sn3HarvestBirdsNumber in
  let sn9 := field scenarioRow FarmRow.sn9PlacementPerCycle in
  let farms := field scenarioRow FarmRow.farms in
  let sn5 :=
    match sn3, mortalityFraction scenario with
    | Some sn3, Some m =>
        if (0 <=? m) && (m <? 1) then
          let denom := 1 - m in
          if denom =? 0 then None else Some (sn3 / denom)
        else None
    | _, _ => None
    end in
  let sn8 :=
    match sn3, sn7 scenario with
    | Some sn3, Some sn7 => if 0 <? sn7 then Some (sn3 / sn7) else None
    | _, _ => None
    end in
  let sn13 :=
    match sn10FarmCapacity inputs, sn11NumberOfHouses inputs,
          sn12HouseArea inputs with
    | Some capacity, Some houses, Some area =>
        let denom := houses * area in
        if 0 <? denom then Some (capacity / denom) else None
    | _, _, _ => None
    end in
  let sn14Local :=
    match sn9, sn10FarmCapacity inputs with
    | Some sn9, Some cap => if 0 <? cap then Some (sn9 / cap) else None
    | _, _ => match farms with Some farms => Some farms | None => None end
    end in
  {| Calc.sn1 := sn1;
     Calc.sn3 := sn3;
     Calc.sn4 := sn4PlannedMortality inputs;
     Calc.sn6 := sn6CycleTimeDays inputs;
     Calc.sn10 := sn10FarmCapacity inputs;
     Calc.sn11 := sn11NumberOfHouses inputs;
     Calc.sn12 := sn12HouseArea inputs;
     Calc.sn5 := sn5;
     Calc.sn7 := sn7 scenario;
     Calc.sn8 := sn8;
     Calc.sn9 := sn9;
     Calc.sn13 := sn13;
     Calc.sn14 := sn14Local |}.

Definition baseVals (scenario : Scenario.BroilerScenario) : Calc.Column :=
  buildCalcForScenario scenario (baseScenario scenario).

Definition roundedVals (scenario : Scenario.BroilerScenario) : Calc.Column :=
  buildCalcForScenario scenario (roundedScenario scenario).

Definition flooredVals (scenario : Scenario.BroilerScenario) : Calc.Column :=
  buildCalcForScenario scenario (flooredScenario scenario).

(** The text of the CSV export in [handleDownloadCsv]: every cell between
    double quotes with its own double quotes doubled, cells joined by a
    comma, rows by CR LF. *)
Definition doubleQuote : N := 34.
Definition comma : N := 44.
Definition CR : N := 13.
Definition LF : N := 10.

(** The global [value.replace] of each double quote by two double quotes. *)
Fixpoint doubleQuotes (value : jsstring) : jsstring :=
  match value with
  | [] => []
  | ch :: rest =>
      if N.eqb ch doubleQuote
      then doubleQuote :: doubleQuote :: doubleQuotes rest
      else ch :: doubleQuotes rest
  end.

Definition escapeCsv (value : jsstring) : jsstring :=
  doubleQuote :: doubleQuotes value ++ [doubleQuote].

(** [Array.prototype.join]. *)
Fixpoint join (separator : jsstring) (parts : list jsstring) : jsstring :=
  match parts with
  | [] => []
  | part :: rest =>
      match rest with
      | [] => part
      | _ :: _ => part ++ separator ++ join separator rest
      end
  end.

Definition csvContent (rows : list (list jsstring)) : jsstring :=
  join [CR; LF] (map (fun row => join [comma] (map escapeCsv row)) rows).

End Page.

Definition withTarget (t : option number) (i : BroilerInputs) : BroilerInputs :=
  {| sn1TargetBroilerMeat := t;
     sn2HarvestBirdAvgWeight := sn2HarvestBirdAvgWeight i;
     sn4PlannedMortality := sn4PlannedMortality i;
     sn6CycleTimeDays := sn6CycleTimeDays i;
     sn10FarmCapacity := sn10FarmCapacity i;
     sn11NumberOfHouses := sn11NumberOfHouses i;
     sn12HouseArea := sn12HouseArea i;
     yieldPercent := yieldPercent i |}.

(** A named, otherwise empty scenario around given inputs and config. *)
Definition scenarioOf (name : jsstring) (i : BroilerInputs) (c : BroilerConfig)
  : Scenario.BroilerScenario :=
  {| Scenario.id := [];
     Scenario.name := name;
     Scenario.description := None;
     Scenario.timeHorizon := year;
     Scenario.customDays := None;
     Scenario.createdAt := [];
     Scenario.inputs := i;
     Scenario.config := c |}.

(** [a] is at most [b] when both are present. *)
Definition optLe (a b : option number) : Prop :=
  forall x y, a = Some x -> b = Some y -> x <= y.

(** * Properties *)

(** ** Comparisons *)

Lemma eqb_eq (x y : number) : (x =? y) = true <-> x = y.
Proof.
  unfold eqb. rewrite Qeq_bool_iff. split.
  - apply Qc_is_canon.
  - intros ->. reflexivity.
Qed.

Lemma eqb_neq (x y : number) : (x =? y) = false <-> x <> y.
Proof.
  rewrite <- eqb_eq. destruct (x =? y); split; congruence.
Qed.

Lemma eqb_refl (x : number) : (x =? x) = true.
Proof. apply eqb_eq. reflexivity. Qed.

Lemma leb_le (x y : number) : (x <=? y) = true <-> x <= y.
Proof. unfold leb, Qcle. apply Qle_bool_iff. Qed.

Lemma leb_gt (x y : number) : (x <=? y) = false <-> y < x.
Proof.
  rewrite <- not_true_iff_false, leb_le. split.
  - apply Qcnot_le_lt.
  - intros H H'. exact (Qclt_not_le _ _ H H').
Qed.

Lemma ltb_lt (x y : number) : (x <? y) = true <-> x < y.
Proof. unfold ltb. rewrite negb_true_iff. apply leb_gt. Qed.

Lemma ltb_ge (x y : number) : (x <? y) = false <-> y <= x.
Proof. unfold ltb. rewrite negb_false_iff. apply leb_le. Qed.

(** Closed equalities and inequalities between literals are decided by
    evaluation. *)
Ltac qc_eval :=
  lazymatch goal with
  | |- _ <> _ => apply eqb_neq; vm_compute; reflexivity
  | |- Qclt _ _ => unfold Qclt; vm_compute; reflexivity
  | |- Qcle _ _ => unfold Qcle; vm_compute; discriminate
  | |- _ =>
      vm_compute;
      lazymatch goal with
      | |- Some _ = Some _ => f_equal; apply Qc_is_canon; reflexivity
      | |- @eq Qc _ _ => apply Qc_is_canon; reflexivity
      | |- _ => reflexivity
      end
  end.

Lemma one_minus_zero (f : number) : 1 - f = 0 -> f = 1.
Proof.
  intros E.
  transitivity (1 - (1 - f)); [ring | rewrite E; ring].
Qed.

Lemma n100_neq_0 : n100 <> 0.
Proof. qc_eval. Qed.

Lemma n1000_neq_0 : n1000 <> 0.
Proof. qc_eval. Qed.

(** ** The flag discipline: every step is regular *)

Lemma regular_ret {A} (a : A) : regular (ret a).
Proof. intros f. unfold value, raises, ret. simpl. now rewrite orb_false_r. Qed.

Lemma regular_raise {A} (a : A) : regular (raiseFlag ;;; ret a).
Proof. intros f. unfold value, raises, bind, raiseFlag, ret. simpl. now rewrite orb_true_r. Qed.

Lemma regular_raiseFlag : regular raiseFlag.
Proof. intros f. unfold value, raises, raiseFlag. simpl. now rewrite orb_true_r. Qed.

Create HintDb flag.
#[local] Hint Resolve regular_ret regular_raise regular_raiseFlag : flag.

Lemma regular_stepSn3 i c : regular (stepSn3 i c).
Proof.
  unfold stepSn3.
  destruct (sn1TargetBroilerMeat i), (sn2HarvestBirdAvgWeight i); auto with flag.
  destruct (_ =? _); auto with flag.
  destruct (birdsFor _ _ _ _); simpl; auto with flag.
Qed.

Lemma regular_stepSn5 a m : regular (stepSn5 a m).
Proof.
  unfold stepSn5. destruct a, m; auto with flag.
  simpl. destruct (_ =? _); auto with flag.
Qed.

Lemma regular_stepSn7 i c : regular (stepSn7 i c).
Proof.
  unfold stepSn7. destruct (sn6CycleTimeDays i); auto with flag.
  simpl. destruct (_ =? _); auto with flag.
Qed.

Lemma regular_stepSn8 a b : regular (stepSn8 a b).
Proof.
  unfold stepSn8. destruct a, b; auto with flag.
  destruct (_ =? _); auto with flag.
Qed.

Lemma regular_stepSn9 a m : regular (stepSn9 a m).
Proof.
  unfold stepSn9. destruct a, m; auto with flag.
  simpl. destruct (_ =? _); auto with flag.
Qed.

Lemma regular_stepSn13 i : regular (stepSn13 i).
Proof.
  unfold stepSn13.
  destruct (sn10FarmCapacity i), (sn11NumberOfHouses i), (sn12HouseArea i);
    auto with flag.
  simpl. destruct (_ =? _); auto with flag.
Qed.

Lemma regular_stepSn14 a i : regular (stepSn14 a i).
Proof.
  unfold stepSn14. destruct a, (sn10FarmCapacity i); auto with flag.
  destruct (_ =? _); auto with flag.
Qed.

Lemma regular_stepMortality v : regular (stepMortality v).
Proof. unfold stepMortality. destruct v; auto with flag. Qed.

Lemma safeNumber_id (v : option number) : safeNumber v = v.
Proof. destruct v; reflexivity. Qed.

Lemma sanitize_id (i : BroilerInputs) : sanitize i = i.
Proof. destruct i. unfold sanitize. simpl. now rewrite !safeNumber_id. Qed.

(** [computeBroilerResults] in closed form: each metric is the value of its
    step, and the flag is the disjunction of what the steps raise. *)
Lemma computeBroilerResults_eq (i : BroilerInputs) (c : BroilerConfig) :
  let m := mortalityFraction i c in
  let sn3 := value (stepSn3 i c) in
  let sn5 := value (stepSn5 sn3 m) in
  let sn7 := value (stepSn7 i c) in
  let sn8 := value (stepSn8 sn3 sn7) in
  let sn9 := value (stepSn9 sn8 m) in
  let sn13 := value (stepSn13 i) in
  let sn14 := value (stepSn14 sn9 i) in
  computeBroilerResults i c =
    mkResults sn3 sn5 sn7 sn8 sn9 sn13 sn14
      (raises (stepSn3 i c) || raises (stepSn5 sn3 m) || raises (stepSn7 i c)
       || raises (stepSn8 sn3 sn7) || raises (stepSn9 sn8 m)
       || raises (stepSn13 i) || raises (stepSn14 sn9 i)
       || negb (mortalityValid m)).
Proof.
  intros. unfold computeBroilerResults. rewrite sanitize_id.
  unfold bind.
  rewrite (regular_stepSn3 i c false).
  rewrite (regular_stepSn5 _ _ _).
  rewrite (regular_stepSn7 _ _ _).
  rewrite (regular_stepSn8 _ _ _).
  rewrite (regular_stepSn9 _ _ _).
  rewrite (regular_stepSn13 _ _).
  rewrite (regular_stepSn14 _ _ _).
  rewrite (regular_stepMortality _ _).
  unfold ret, readFlag. simpl. fold m sn3 sn5 sn7 sn8 sn9 sn13 sn14.
  f_equal. unfold raises at 8, stepMortality.
  destruct (mortalityValid m); reflexivity.
Qed.

Ltac results :=
  rewrite ?computeBroilerResults_eq; cbv zeta;
  cbn [sn3HarvestBirdsNumber sn5OverallPlacement sn7CyclesPerYear
       sn8HarvestPerCycle sn9PlacementPerCycle sn13Density sn14NumberOfFarms
       hasDivisionByZero].

(** A disjunction of flags is [true] as soon as one disjunct is. *)
Ltac flag_true :=
  cbn [orb]; rewrite ?orb_true_r; cbn [orb]; reflexivity.

(** ** What each step yields and when it raises the flag *)

Lemma stepSn3_zero_weight i c t :
  sn1TargetBroilerMeat i = Some t -> sn2HarvestBirdAvgWeight i = Some 0 ->
  value (stepSn3 i c) = None /\ raises (stepSn3 i c) = true.
Proof. intros H1 H2. unfold stepSn3. rewrite H1, H2. split; reflexivity. Qed.

Lemma stepSn3_birds i c t w :
  sn1TargetBroilerMeat i = Some t -> sn2HarvestBirdAvgWeight i = Some w ->
  w <> 0 ->
  value (stepSn3 i c) = birdsFor i c t w /\ raises (stepSn3 i c) = false.
Proof.
  intros H1 H2 Hw. unfold stepSn3. rewrite H1, H2.
  apply eqb_neq in Hw. rewrite Hw.
  destruct (birdsFor i c t w); split; reflexivity.
Qed.

Lemma stepSn7_zero_days i c :
  sn6CycleTimeDays i = Some 0 ->
  value (stepSn7 i c) = None /\ raises (stepSn7 i c) = true.
Proof. intros H. unfold stepSn7. rewrite H. split; reflexivity. Qed.

Lemma stepSn7_cycles i c d :
  sn6CycleTimeDays i = Some d -> d <> 0 ->
  value (stepSn7 i c) =
    Some (let q := (if useLeapYearCycles c then n365_25 else n365) / d in
          if useFullCyclesOnly c then Math_floor q else q)
  /\ raises (stepSn7 i c) = false.
Proof.
  intros H Hd. unfold stepSn7. rewrite H. cbv zeta.
  apply eqb_neq in Hd. rewrite Hd. split; reflexivity.
Qed.

Lemma stepSn8_zero_cycles b :
  value (stepSn8 (Some b) (Some 0)) = None
  /\ raises (stepSn8 (Some b) (Some 0)) = true.
Proof. split; reflexivity. Qed.

Lemma stepSn13_zero_area i cap h a :
  sn10FarmCapacity i = Some cap -> sn11NumberOfHouses i = Some h ->
  sn12HouseArea i = Some a -> h * a = 0 ->
  value (stepSn13 i) = None /\ raises (stepSn13 i) = true.
Proof.
  intros H1 H2 H3 Hz. unfold stepSn13. rewrite H1, H2, H3. cbv zeta.
  rewrite Hz. split; reflexivity.
Qed.

Lemma stepSn14_zero_capacity i p :
  sn10FarmCapacity i = Some 0 ->
  value (stepSn14 (Some p) i) = None /\ raises (stepSn14 (Some p) i) = true.
Proof. intros H. unfold stepSn14. rewrite H. split; reflexivity. Qed.

Lemma stepSn5_unit_mortality b :
  value (stepSn5 (Some b) (Some 1)) = None
  /\ raises (stepSn5 (Some b) (Some 1)) = true.
Proof. split; reflexivity. Qed.

(** C2. [computeBroilerResults] is total (it always returns a result), and
    a zero denominator whose step has all its operands present leaves that
    step's metric absent and sets [hasDivisionByZero]: weight = 0 (SN3),
    cycleDays = 0 (SN7), cyclesPerYear = 0 (SN8), houses * area = 0 (SN13),
    capacity = 0 (SN14).  In particular cycleDays = 0 gives absent
    cyclesPerYear with the flag set, and houses = 2, area = 0,
    capacity = 100 gives absent density with the flag set. *)
Theorem zero_denominator_absent_and_flagged (i : BroilerInputs) (c : BroilerConfig) :
  let r := computeBroilerResults i c in
  (exists r0, computeBroilerResults i c = r0)
  /\ (forall t, sn1TargetBroilerMeat i = Some t ->
        sn2HarvestBirdAvgWeight i = Some 0 ->
        sn3HarvestBirdsNumber r = None /\ hasDivisionByZero r = true)
  /\ (sn6CycleTimeDays i = Some 0 ->
        sn7CyclesPerYear r = None /\ hasDivisionByZero r = true)
  /\ (forall b, sn3HarvestBirdsNumber r = Some b ->
        sn7CyclesPerYear r = Some 0 ->
        sn8HarvestPerCycle r = None /\ hasDivisionByZero r = true)
  /\ (forall cap h a, sn10FarmCapacity i = Some cap ->
        sn11NumberOfHouses i = Some h -> sn12HouseArea i = Some a ->
        h * a = 0 ->
        sn13Density r = None /\ hasDivisionByZero r = true)
  /\ (forall p, sn9PlacementPerCycle r = Some p ->
        sn10FarmCapacity i = Some 0 ->
        sn14NumberOfFarms r = None /\ hasDivisionByZero r = true)
  /\ (sn10FarmCapacity i = Some (lit 100 1) ->
        sn11NumberOfHouses i = Some (lit 2 1) -> sn12HouseArea i = Some 0 ->
        sn13Density r = None /\ hasDivisionByZero r = true).
Proof.
  intros r. subst r. split; [eexists; reflexivity|].
  results. repeat apply conj.
  - intros t H1 H2.
    destruct (stepSn3_zero_weight i c t H1 H2) as [-> ->].
    split; [reflexivity | flag_true].
  - intros H.
    destruct (stepSn7_zero_days i c H) as [-> ->].
    split; [reflexivity | flag_true].
  - intros b H3 H7. rewrite H3, H7.
    destruct (stepSn8_zero_cycles b) as [-> ->].
    split; [reflexivity | flag_true].
  - intros cap h a H10 H11 H12 Hz.
    destruct (stepSn13_zero_area i cap h a H10 H11 H12 Hz) as [-> ->].
    split; [reflexivity | flag_true].
  - intros p H9 H10. rewrite H9.
    destruct (stepSn14_zero_capacity i p H10) as [-> ->].
    split; [reflexivity | flag_true].
  - intros H10 H11 H12.
    destruct (stepSn13_zero_area i _ _ _ H10 H11 H12 (Qcmult_0_r _))
      as [-> ->].
    split; [reflexivity | flag_true].
Qed.

Lemma zero_denominator_absent_and_flagged_witness :
  sn7CyclesPerYear
    (computeBroilerResults (withCycleDays (Some 0) sampleInputs) sampleConfig)
    = None
  /\ hasDivisionByZero
       (computeBroilerResults (withCycleDays (Some 0) sampleInputs) sampleConfig)
     = true.
Proof.
  exact (proj1 (proj2 (proj2
           (zero_denominator_absent_and_flagged
              (withCycleDays (Some 0) sampleInputs) sampleConfig)))
         eq_refl).
Defined.

(** ** Mortality out of range *)

Lemma invalid_mortality_flagged i c :
  mortalityValid (mortalityFraction i c) = false ->
  hasDivisionByZero (computeBroilerResults i c) = true.
Proof. intros H. results. rewrite H. flag_true. Qed.

(** A mortality of exactly 100 % is the one out-of-range value whose
    denominator [1 - f] vanishes: there the dependent metrics are absent. *)
Lemma unit_mortality_absent i c :
  mortalityFraction i c = Some 1 ->
  let r := computeBroilerResults i c in
  sn5OverallPlacement r = None /\ sn9PlacementPerCycle r = None
  /\ sn14NumberOfFarms r = None /\ hasDivisionByZero r = true.
Proof.
  intros H r. subst r. results. rewrite H.
  assert (H5 : value (stepSn5 (value (stepSn3 i c)) (Some 1)) = None)
    by (destruct (value (stepSn3 i c)); reflexivity).
  assert (H9 : forall a, value (stepSn9 a (Some 1)) = None)
    by (intros [a|]; reflexivity).
  rewrite H5, H9. cbn. repeat split. flag_true.
Qed.

(** C1. At a planned mortality of 150 % (fraction 1.5, out of range) the
    flag is set, but overall placement, placement per cycle and farms needed
    are all present (and negative) instead of absent. *)
Theorem out_of_range_mortality_metrics_present :
  let i := withMortality (Some (lit 150 1)) sampleInputs in
  let r := computeBroilerResults i sampleConfig in
  mortalityFraction i sampleConfig = Some (lit 3 2)
  /\ mortalityValid (mortalityFraction i sampleConfig) = false
  /\ hasDivisionByZero r = true
  /\ sn5OverallPlacement r = Some (lit (-5000000) 11)
  /\ sn9PlacementPerCycle r = Some (lit (-42000000) 803)
  /\ sn14NumberOfFarms r = Some (lit (-2100) 803).
Proof. cbv zeta. repeat split; qc_eval. Qed.

(** ** Absent operands *)

Lemma withdrawn_refl {A} (a : option A) : withdrawn a a.
Proof. right. reflexivity. Qed.

Lemma withdrawn_None {A} (a : option A) : withdrawn None a.
Proof. left. reflexivity. Qed.

#[local] Hint Resolve withdrawn_refl withdrawn_None : flag.

Lemma below_refl m : below m m.
Proof. split; auto with flag. Qed.

Lemma quiet_below m' m : quiet m' -> below m' m.
Proof. intros [Hv Hr]. split; [left; exact Hv | rewrite Hr; discriminate]. Qed.

Lemma stepSn3_quiet_l i c : sn1TargetBroilerMeat i = None -> quiet (stepSn3 i c).
Proof. intros H. unfold stepSn3. rewrite H. split; reflexivity. Qed.

Lemma stepSn3_quiet_r i c : sn2HarvestBirdAvgWeight i = None -> quiet (stepSn3 i c).
Proof.
  intros H. unfold stepSn3. rewrite H.
  destruct (sn1TargetBroilerMeat i); split; reflexivity.
Qed.

Lemma stepSn3_quiet_yield i c :
  unitsMode c = meatTonsWithYield -> yieldPercent i = None ->
  value (stepSn3 i c) = None.
Proof.
  intros Hm Hy. unfold stepSn3, birdsFor. rewrite Hm, Hy.
  destruct (sn1TargetBroilerMeat i), (sn2HarvestBirdAvgWeight i); try reflexivity.
  destruct (_ =? _), (useYield c); reflexivity.
Qed.

Lemma stepSn5_quiet_l m : quiet (stepSn5 None m).
Proof. split; reflexivity. Qed.

Lemma stepSn5_quiet_r a : quiet (stepSn5 a None).
Proof. destruct a; split; reflexivity. Qed.

Lemma stepSn7_quiet i c : sn6CycleTimeDays i = None -> quiet (stepSn7 i c).
Proof. intros H. unfold stepSn7. rewrite H. split; reflexivity. Qed.

Lemma stepSn8_quiet_l b : quiet (stepSn8 None b).
Proof. split; reflexivity. Qed.

Lemma stepSn8_quiet_r a : quiet (stepSn8 a None).
Proof. destruct a; split; reflexivity. Qed.

Lemma stepSn9_quiet_l m : quiet (stepSn9 None m).
Proof. split; reflexivity. Qed.

Lemma stepSn9_quiet_r a : quiet (stepSn9 a None).
Proof. destruct a; split; reflexivity. Qed.

Lemma stepSn13_quiet i :
  sn10FarmCapacity i = None \/ sn11NumberOfHouses i = None
  \/ sn12HouseArea i = None ->
  quiet (stepSn13 i).
Proof.
  unfold stepSn13. intros [H | [H | H]]; rewrite H;
    destruct (sn10FarmCapacity i); try destruct (sn11NumberOfHouses i);
    split; reflexivity.
Qed.

Lemma stepSn14_quiet_l i : quiet (stepSn14 None i).
Proof. split; reflexivity. Qed.

Lemma stepSn14_quiet_r a i : sn10FarmCapacity i = None -> quiet (stepSn14 a i).
Proof. intros H. unfold stepSn14. rewrite H. destruct a; split; reflexivity. Qed.

Lemma mortalityFraction_None i c :
  sn4PlannedMortality i = None -> mortalityFraction i c = None.
Proof. intros H. unfold mortalityFraction. now rewrite H. Qed.

(** ** Withdrawing inputs never raises the flag *)

Lemma birdsFor_fewer i' i c t w :
  withdrawn (yieldPercent i') (yieldPercent i) ->
  withdrawn (birdsFor i' c t w) (birdsFor i c t w).
Proof.
  intros [H | H]; unfold birdsFor; rewrite H; auto with flag.
  destruct (unitsMode c); auto with flag.
  destruct (useYield c); auto with flag.
Qed.

Lemma stepSn3_fewer i' i c :
  fewerInputs i' i -> below (stepSn3 i' c) (stepSn3 i c).
Proof.
  intros (H1 & H2 & _ & _ & _ & _ & _ & Hy).
  destruct H1 as [H1 | H1]; [now apply quiet_below, stepSn3_quiet_l|].
  destruct H2 as [H2 | H2]; [now apply quiet_below, stepSn3_quiet_r|].
  unfold stepSn3. rewrite H1, H2.
  destruct (sn1TargetBroilerMeat i) as [t|], (sn2HarvestBirdAvgWeight i) as [w|];
    try apply below_refl.
  destruct (w =? 0); [apply below_refl|].
  destruct (birdsFor_fewer i' i c t w Hy) as [-> | ->].
  - apply quiet_below. split; reflexivity.
  - apply below_refl.
Qed.

Lemma stepSn5_fewer a' a m' m :
  withdrawn a' a -> withdrawn m' m -> below (stepSn5 a' m') (stepSn5 a m).
Proof.
  intros [-> | ->]; [intros _; apply quiet_below, stepSn5_quiet_l|].
  intros [-> | ->]; [apply quiet_below, stepSn5_quiet_r | apply below_refl].
Qed.

Lemma stepSn7_fewer i' i c :
  fewerInputs i' i -> below (stepSn7 i' c) (stepSn7 i c).
Proof.
  intros (_ & _ & _ & [H | H] & _).
  - now apply quiet_below, stepSn7_quiet.
  - unfold stepSn7. rewrite H. apply below_refl.
Qed.

Lemma stepSn8_fewer a' a b' b :
  withdrawn a' a -> withdrawn b' b -> below (stepSn8 a' b') (stepSn8 a b).
Proof.
  intros [-> | ->]; [intros _; apply quiet_below, stepSn8_quiet_l|].
  intros [-> | ->]; [apply quiet_below, stepSn8_quiet_r | apply below_refl].
Qed.

Lemma stepSn9_fewer a' a m' m :
  withdrawn a' a -> withdrawn m' m -> below (stepSn9 a' m') (stepSn9 a m).
Proof.
  intros [-> | ->]; [intros _; apply quiet_below, stepSn9_quiet_l|].
  intros [-> | ->]; [apply quiet_below, stepSn9_quiet_r | apply below_refl].
Qed.

Lemma stepSn13_fewer i' i :
  fewerInputs i' i -> below (stepSn13 i') (stepSn13 i).
Proof.
  intros (_ & _ & _ & _ & H10 & H11 & H12 & _).
  destruct H10 as [H10 | H10]; [apply quiet_below, stepSn13_quiet; auto|].
  destruct H11 as [H11 | H11]; [apply quiet_below, stepSn13_quiet; auto|].
  destruct H12 as [H12 | H12]; [apply quiet_below, stepSn13_quiet; auto|].
  unfold stepSn13. rewrite H10, H11, H12. apply below_refl.
Qed.

Lemma stepSn14_fewer a' a i' i :
  withdrawn a' a -> fewerInputs i' i ->
  below (stepSn14 a' i') (stepSn14 a i).
Proof.
  intros Ha (_ & _ & _ & _ & H10 & _).
  destruct Ha as [-> | ->]; [apply quiet_below, stepSn14_quiet_l|].
  destruct H10 as [H10 | H10]; [now apply quiet_below, stepSn14_quiet_r|].
  unfold stepSn14. rewrite H10. apply below_refl.
Qed.

Lemma mortalityFraction_fewer i' i c :
  fewerInputs i' i ->
  withdrawn (mortalityFraction i' c) (mortalityFraction i c).
Proof.
  intros (_ & _ & [H | H] & _); unfold mortalityFraction; rewrite H;
    auto with flag.
Qed.

Lemma mortalityValid_fewer m' m :
  withdrawn m' m -> mortalityValid m = true -> mortalityValid m' = true.
Proof. intros [-> | ->]; auto. Qed.

Lemma orb_raise (a a' b b' : bool) :
  (a' = true -> a = true) -> (b' = true -> b = true) ->
  a' || b' = true -> a || b = true.
Proof. destruct a, a', b, b'; simpl; intuition congruence. Qed.

Lemma flag_fewer i' i c :
  fewerInputs i' i ->
  hasDivisionByZero (computeBroilerResults i' c) = true ->
  hasDivisionByZero (computeBroilerResults i c) = true.
Proof.
  intros Hf. results.
  pose proof (mortalityFraction_fewer i' i c Hf) as Hm.
  pose proof (stepSn3_fewer i' i c Hf) as [V3 R3].
  pose proof (stepSn5_fewer _ _ _ _ V3 Hm) as [V5 R5].
  pose proof (stepSn7_fewer i' i c Hf) as [V7 R7].
  pose proof (stepSn8_fewer _ _ _ _ V3 V7) as [V8 R8].
  pose proof (stepSn9_fewer _ _ _ _ V8 Hm) as [V9 R9].
  pose proof (stepSn13_fewer i' i Hf) as [V13 R13].
  pose proof (stepSn14_fewer _ _ i' i V9 Hf) as [V14 R14].
  repeat (apply orb_raise; try assumption).
  rewrite !negb_true_iff, <- !not_true_iff_false.
  intros H H'. apply H. exact (mortalityValid_fewer _ _ Hm H').
Qed.

(** Why the flag is set: a zero denominator among present operands, or a
    present mortality fraction outside [0, 1). *)
Lemma flag_causes i c :
  let r := computeBroilerResults i c in
  hasDivisionByZero r = true ->
  (exists t, sn1TargetBroilerMeat i = Some t
             /\ sn2HarvestBirdAvgWeight i = Some 0)
  \/ sn6CycleTimeDays i = Some 0
  \/ (exists b, sn3HarvestBirdsNumber r = Some b
                /\ sn7CyclesPerYear r = Some 0)
  \/ (exists cap h a, sn10FarmCapacity i = Some cap
                      /\ sn11NumberOfHouses i = Some h
                      /\ sn12HouseArea i = Some a /\ h * a = 0)
  \/ (exists p, sn9PlacementPerCycle r = Some p
                /\ sn10FarmCapacity i = Some 0)
  \/ (exists f, mortalityFraction i c = Some f
                /\ mortalityValid (Some f) = false).
Proof.
  intros r. subst r. results.
  set (m := mortalityFraction i c).
  set (v3 := value (stepSn3 i c)). set (v7 := value (stepSn7 i c)).
  set (v8 := value (stepSn8 v3 v7)). set (v9 := value (stepSn9 v8 m)).
  rewrite !orb_true_iff.
  intros [[[[[[[H | H] | H] | H] | H] | H] | H] | H].
  - left. unfold stepSn3 in H.
    destruct (sn1TargetBroilerMeat i) as [t|]; [|discriminate].
    destruct (sn2HarvestBirdAvgWeight i) as [w|]; [|discriminate].
    destruct (w =? 0) eqn:E.
    + apply eqb_eq in E. subst w. eauto.
    + destruct (birdsFor i c t w); discriminate.
  - right. right. right. right. right.
    unfold stepSn5 in H. destruct v3 as [b|]; [|discriminate].
    destruct m as [f|]; [|discriminate]. cbv zeta in H.
    exists f. split; [reflexivity|].
    destruct (1 - f =? 0) eqn:E; [|discriminate].
    apply eqb_eq in E. apply one_minus_zero in E. subst f.
    reflexivity.
  - right. left. unfold stepSn7 in H.
    destruct (sn6CycleTimeDays i) as [d|]; [|discriminate]. cbv zeta in H.
    destruct (d =? 0) eqn:E; [|discriminate].
    apply eqb_eq in E. now subst d.
  - right. right. left. unfold stepSn8 in H.
    destruct v3 as [b|]; [|discriminate].
    destruct v7 as [s|]; [|discriminate].
    destruct (s =? 0) eqn:E; [|discriminate].
    apply eqb_eq in E. subst s. eauto.
  - right. right. right. right. right.
    unfold stepSn9 in H. destruct v8 as [b|]; [|discriminate].
    destruct m as [f|]; [|discriminate]. cbv zeta in H.
    exists f. split; [reflexivity|].
    destruct (1 - f =? 0) eqn:E; [|discriminate].
    apply eqb_eq in E. apply one_minus_zero in E. subst f.
    reflexivity.
  - right. right. right. left. unfold stepSn13 in H.
    destruct (sn10FarmCapacity i) as [cap|]; [|discriminate].
    destruct (sn11NumberOfHouses i) as [h|]; [|discriminate].
    destruct (sn12HouseArea i) as [a|]; [|discriminate]. cbv zeta in H.
    destruct (h * a =? 0) eqn:E; [|discriminate].
    apply eqb_eq in E. exists cap, h, a. auto.
  - right. right. right. right. left. unfold stepSn14 in H.
    destruct v9 as [p|]; [|discriminate].
    destruct (sn10FarmCapacity i) as [cap|]; [|discriminate].
    destruct (cap =? 0) eqn:E; [|discriminate].
    apply eqb_eq in E. subst cap. eauto.
  - right. right. right. right. right.
    destruct m as [f|]; [|discriminate].
    exists f. split; [reflexivity|]. now apply negb_true_iff.
Qed.


Lemma fewerInputs_empty i : fewerInputs emptyInputs i.
Proof. repeat split; apply withdrawn_None. Qed.


(** ** Harvest birds (SN3) *)

Lemma sn3_birds i c t w :
  sn1TargetBroilerMeat i = Some t -> sn2HarvestBirdAvgWeight i = Some w ->
  w <> 0 ->
  sn3HarvestBirdsNumber (computeBroilerResults i c) = birdsFor i c t w.
Proof. intros H1 H2 Hw. results. now apply stepSn3_birds. Qed.



(** ** Back-solving the target *)



(** The same round trip in the two other modes. *)
Lemma invert_after_forward_kg i c t w :
  unitsMode c = kgPerYear_kgPerBird ->
  sn1TargetBroilerMeat i = Some t -> sn2HarvestBirdAvgWeight i = Some w ->
  w <> 0 ->
  invertSn3ToSn1 (t / w) i c = Some t.
Proof.
  intros Hm H1 H2 Hw. unfold invertSn3ToSn1. rewrite H2, Hm.
  pose proof Hw as Hw'. apply eqb_neq in Hw'. rewrite Hw'. cbv beta iota.
  apply f_equal. field. auto.
Qed.

Lemma invert_after_forward_yield i c t w y :
  unitsMode c = meatTonsWithYield -> useYield c = true ->
  sn1TargetBroilerMeat i = Some t -> sn2HarvestBirdAvgWeight i = Some w ->
  yieldPercent i = Some y -> w <> 0 -> 0 < y ->
  invertSn3ToSn1 (t * n1000 * (n100 / y) / w) i c = Some t.
Proof.
  intros Hm Hu H1 H2 Hy Hw Hpos. unfold invertSn3ToSn1.
  rewrite H2, Hm, Hu, Hy.
  pose proof Hw as Hw'. apply eqb_neq in Hw'. rewrite Hw'.
  assert (Hy0 : y <> 0)
    by (intros ->; exact (Qclt_not_le _ _ Hpos (Qcle_refl _))).
  pose proof Hy0 as Hy0'. apply eqb_neq in Hy0'. rewrite Hy0'.
  apply leb_gt in Hpos. rewrite Hpos. cbn [orb]. cbv beta iota.
  apply f_equal. pose proof n1000_neq_0. pose proof n100_neq_0.
  field. auto.
Qed.

(** ** Cycles per year (SN7) *)

(** [Math_floor] is the mathematical floor: the integer [z] with
    [z <= x < z + 1]. *)
Lemma Math_floor_spec (x : number) :
  (exists z : Z, Math_floor x = Q2Qc (inject_Z z))
  /\ Math_floor x <= x /\ x < Math_floor x + 1.
Proof.
  split; [exists (Qfloor x); reflexivity|].
  unfold Qcle, Qclt, Math_floor, Qcplus. cbn [this Q2Qc].
  rewrite !Qred_correct. split.
  - apply Qfloor_le.
  - change 1%Q with (inject_Z 1). rewrite <- inject_Z_plus. apply Qlt_floor.
Qed.



(** ** Yield mode without a usable yield percent *)

Lemma stepSn7_raises_iff i c :
  raises (stepSn7 i c) = true <-> sn6CycleTimeDays i = Some 0.
Proof.
  split.
  - unfold stepSn7. destruct (sn6CycleTimeDays i) as [d|]; [|discriminate].
    cbv zeta. destruct (d =? 0) eqn:E; [|discriminate].
    apply eqb_eq in E. now subst d.
  - intros H. now apply stepSn7_zero_days.
Qed.

Lemma stepSn13_raises_iff i :
  raises (stepSn13 i) = true <->
  exists cap h a, sn10FarmCapacity i = Some cap
                  /\ sn11NumberOfHouses i = Some h
                  /\ sn12HouseArea i = Some a /\ h * a = 0.
Proof.
  split.
  - unfold stepSn13.
    destruct (sn10FarmCapacity i) as [cap|]; [|discriminate].
    destruct (sn11NumberOfHouses i) as [h|]; [|discriminate].
    destruct (sn12HouseArea i) as [a|]; [|discriminate]. cbv zeta.
    destruct (h * a =? 0) eqn:E; [|discriminate].
    apply eqb_eq in E. exists cap, h, a. auto.
  - intros (cap & h & a & H10 & H11 & H12 & Hz).
    now apply (stepSn13_zero_area i cap h a).
Qed.

Lemma birdsFor_no_yield i c t w :
  unitsMode c = meatTonsWithYield ->
  yieldPercent i = None \/ (exists y, yieldPercent i = Some y /\ y <= 0) ->
  birdsFor i c t w = None.
Proof.
  intros Hm Hy. unfold birdsFor. rewrite Hm.
  destruct (useYield c); [|reflexivity].
  destruct Hy as [-> | (y & -> & Hy)]; [reflexivity|].
  apply ltb_ge in Hy. now rewrite Hy.
Qed.



(** ** Scenario rows *)

Lemma makeRowForFarms_skipped i c b label farms :
  ~ rowComputable i c b farms ->
  makeRowForFarms i c b label farms = skippedRow label farms.
Proof.
  intros Hn. unfold makeRowForFarms.
  destruct farms as [f|]; [|reflexivity].
  destruct (sn10FarmCapacity i) as [cap|] eqn:E10; [|reflexivity].
  destruct (mFraction i c) as [m|] eqn:Em; [|reflexivity].
  destruct (sn7CyclesPerYear b) as [s|] eqn:E7; [|reflexivity].
  destruct (negb (Number_isFinite f) || (f <=? 0) || (cap <=? 0)
            || (m <? 0) || (1 <=? m) || (s <=? 0)) eqn:G; [reflexivity|].
  exfalso. apply Hn.
  rewrite !orb_false_iff in G.
  destruct G as [[[[[_ Gf] Gc] Gm0] Gm1] Gs].
  apply leb_gt in Gf, Gc, Gs, Gm1. apply ltb_ge in Gm0.
  unfold rowComputable. rewrite E10, Em, E7.
  exact (conj (ex_intro _ f (conj eq_refl Gf))
          (conj (ex_intro _ cap (conj eq_refl Gc))
             (conj (ex_intro _ m (conj eq_refl (conj Gm0 Gm1)))
                (ex_intro _ s (conj eq_refl Gs))))).
Qed.

Lemma makeRowForFarms_computed i c b label f cap m s :
  sn10FarmCapacity i = Some cap -> mFraction i c = Some m ->
  sn7CyclesPerYear b = Some s ->
  0 < f -> 0 < cap -> 0 <= m -> m < 1 -> 0 < s ->
  makeRowForFarms i c b label (Some f) =
    {| FarmRow.label := label;
       FarmRow.farms := Some f;
       FarmRow.sn1TargetBroilerMeat :=
         invertSn3ToSn1 (f * cap * (1 - m) * s) i c;
       FarmRow.sn3HarvestBirdsNumber := Some (f * cap * (1 - m) * s);
       FarmRow.sn9PlacementPerCycle := Some (f * cap) |}.
Proof.
  intros E10 Em E7 Hf Hc Hm0 Hm1 Hs. unfold makeRowForFarms.
  rewrite E10, Em, E7.
  apply leb_gt in Hf, Hc, Hs, Hm1. apply ltb_ge in Hm0.
  rewrite Hf, Hc, Hs, Hm0, Hm1. reflexivity.
Qed.

Lemma mortalityFraction_of_mFraction i c m :
  mFraction i c = Some m -> 0 <= m -> m < 1 ->
  exists m', mortalityFraction i c = Some m' /\ 0 <= m' /\ m' < 1.
Proof.
  unfold mFraction, mortalityFraction.
  destruct (sn4PlannedMortality i) as [raw|]; [|discriminate].
  destruct (mortalityAsPercent c).
  - intros [= <-] H0 H1. destruct (raw <=? 0).
    + exists 0. repeat split; qc_eval.
    + eauto.
  - intros [= <-] H0 H1. eauto.
Qed.



Lemma makeRowForFarms_label i c b label farms :
  FarmRow.label (makeRowForFarms i c b label farms) = label.
Proof.
  unfold makeRowForFarms.
  destruct farms, (sn10FarmCapacity i), (mFraction i c), (sn7CyclesPerYear b);
    try reflexivity.
  destruct (_ || _); reflexivity.
Qed.

Lemma makeRowForFarms_farms i c b label farms :
  FarmRow.farms (makeRowForFarms i c b label farms) = farms.
Proof.
  unfold makeRowForFarms.
  destruct farms, (sn10FarmCapacity i), (mFraction i c), (sn7CyclesPerYear b);
    try reflexivity.
  destruct (_ || _); reflexivity.
Qed.

Lemma makeRowForFarms_placement i c b label farms :
  (rowComputable i c b farms ->
   exists f cap, farms = Some f /\ sn10FarmCapacity i = Some cap
                 /\ FarmRow.sn9PlacementPerCycle (makeRowForFarms i c b label farms)
                    = Some (f * cap))
  /\ (~ rowComputable i c b farms ->
      FarmRow.sn9PlacementPerCycle (makeRowForFarms i c b label farms) = None).
Proof.
  split.
  - intros ((f & -> & Hf) & (cap & E10 & Hc) & (m & Em & Hm0 & Hm1)
            & (s & E7 & Hs)).
    exists f, cap. repeat split; try assumption.
    now rewrite (makeRowForFarms_computed i c b label f cap m s).
  - intros Hn. now rewrite makeRowForFarms_skipped.
Qed.

Lemma Math_ceil_spec (x : number) :
  (exists z : Z, Math_ceil x = Q2Qc (inject_Z z))
  /\ x <= Math_ceil x /\ Math_ceil x < x + 1.
Proof.
  split; [exists (Qceiling x); reflexivity|].
  unfold Qcle, Qclt, Math_ceil, Qcplus. cbn [this Q2Qc].
  rewrite !Qred_correct. split.
  - apply Qle_ceiling.
  - pose proof (Qceiling_lt x) as H.
    unfold Z.sub in H. rewrite inject_Z_plus in H.
    change (inject_Z (-1)) with (-(1))%Q in H.
    apply Qplus_lt_l with (z := (-(1))%Q).
    rewrite <- Qplus_assoc, Qplus_opp_r, Qplus_0_r. exact H.
Qed.




(** ** Negative mortality given as a percent *)

Lemma div100_neg (raw : number) : raw < 0 -> raw / n100 < 0.
Proof.
  intros H. unfold Qcdiv. rewrite <- (Qcmult_0_l (/ n100)).
  apply Qcmult_lt_compat_r; [qc_eval | exact H].
Qed.

Lemma makeRowForFarms_negative_fraction i c b label farms m :
  mFraction i c = Some m -> m < 0 ->
  makeRowForFarms i c b label farms = skippedRow label farms.
Proof.
  intros Em Hm. apply makeRowForFarms_skipped.
  intros (_ & _ & (m' & Em' & H0 & _) & _).
  rewrite Em in Em'. injection Em' as <-.
  exact (Qclt_not_le _ _ Hm H0).
Qed.



(** * Further properties *)

(** ** Reading the chain backwards

    A metric that is present tells how it was computed. *)

Lemma stepSn3_Some i c b :
  value (stepSn3 i c) = Some b ->
  exists t w, sn1TargetBroilerMeat i = Some t
              /\ sn2HarvestBirdAvgWeight i = Some w /\ w <> 0
              /\ birdsFor i c t w = Some b.
Proof.
  unfold stepSn3.
  destruct (sn1TargetBroilerMeat i) as [t|]; [|discriminate].
  destruct (sn2HarvestBirdAvgWeight i) as [w|]; [|discriminate].
  destruct (w =? 0) eqn:E; [discriminate|]. apply eqb_neq in E.
  destruct (birdsFor i c t w) as [b'|] eqn:B; [|discriminate].
  cbn. intros [= <-]. exists t, w. auto.
Qed.

Lemma stepSn5_Some a m v :
  value (stepSn5 a m) = Some v ->
  exists b f, a = Some b /\ m = Some f /\ 1 - f <> 0 /\ v = b / (1 - f).
Proof.
  unfold stepSn5. destruct a as [b|]; [|discriminate].
  destruct m as [f|]; [|discriminate]. cbv zeta.
  destruct (1 - f =? 0) eqn:E; [discriminate|]. apply eqb_neq in E.
  cbn. intros [= <-]. exists b, f. auto.
Qed.

Lemma stepSn8_Some a b v :
  value (stepSn8 a b) = Some v ->
  exists x s, a = Some x /\ b = Some s /\ s <> 0 /\ v = x / s.
Proof.
  unfold stepSn8. destruct a as [x|]; [|discriminate].
  destruct b as [s|]; [|discriminate].
  destruct (s =? 0) eqn:E; [discriminate|]. apply eqb_neq in E.
  cbn. intros [= <-]. exists x, s. auto.
Qed.

Lemma stepSn9_Some a m v :
  value (stepSn9 a m) = Some v ->
  exists h f, a = Some h /\ m = Some f /\ 1 - f <> 0 /\ v = h / (1 - f).
Proof.
  unfold stepSn9. destruct a as [h|]; [|discriminate].
  destruct m as [f|]; [|discriminate]. cbv zeta.
  destruct (1 - f =? 0) eqn:E; [discriminate|]. apply eqb_neq in E.
  cbn. intros [= <-]. exists h, f. auto.
Qed.

Lemma stepSn14_Some a i v :
  value (stepSn14 a i) = Some v ->
  exists p cap, a = Some p /\ sn10FarmCapacity i = Some cap /\ cap <> 0
                /\ v = p / cap.
Proof.
  unfold stepSn14. destruct a as [p|]; [|discriminate].
  destruct (sn10FarmCapacity i) as [cap|]; [|discriminate].
  destruct (cap =? 0) eqn:E; [discriminate|]. apply eqb_neq in E.
  cbn. intros [= <-]. exists p, cap. auto.
Qed.

Lemma stepSn5_value b f :
  1 - f <> 0 -> value (stepSn5 (Some b) (Some f)) = Some (b / (1 - f)).
Proof.
  intros H. unfold stepSn5. cbv zeta. apply eqb_neq in H. now rewrite H.
Qed.

Lemma stepSn8_value x s :
  s <> 0 -> value (stepSn8 (Some x) (Some s)) = Some (x / s).
Proof. intros H. unfold stepSn8. apply eqb_neq in H. now rewrite H. Qed.

Lemma stepSn9_value h f :
  1 - f <> 0 -> value (stepSn9 (Some h) (Some f)) = Some (h / (1 - f)).
Proof.
  intros H. unfold stepSn9. cbv zeta. apply eqb_neq in H. now rewrite H.
Qed.

Lemma stepSn14_value p i cap :
  sn10FarmCapacity i = Some cap -> cap <> 0 ->
  value (stepSn14 (Some p) i) = Some (p / cap).
Proof.
  intros E H. unfold stepSn14. rewrite E. apply eqb_neq in H. now rewrite H.
Qed.

Lemma pos_neq_0 (x : Qc) : 0 < x -> x <> 0.
Proof. intros H ->. exact (Qclt_not_le _ _ H (Qcle_refl _)). Qed.

(** ** Back-solving and the forward formula *)

Lemma invert_birdsFor i c t w b :
  sn2HarvestBirdAvgWeight i = Some w -> w <> 0 ->
  birdsFor i c t w = Some b ->
  invertSn3ToSn1 b i c = Some t.
Proof.
  intros H2 Hw. unfold birdsFor, invertSn3ToSn1. rewrite H2.
  pose proof Hw as Hw'. apply eqb_neq in Hw'. rewrite Hw'.
  pose proof n1000_neq_0. pose proof n100_neq_0.
  destruct (unitsMode c).
  - intros [= <-]. apply f_equal. field. auto.
  - intros [= <-]. apply f_equal. field. auto.
  - destruct (useYield c); [|discriminate].
    destruct (yieldPercent i) as [y|]; [|discriminate].
    destruct (0 <? y) eqn:Hy; [|discriminate].
    intros [= <-]. apply ltb_lt in Hy. pose proof (pos_neq_0 y Hy) as Hy0.
    pose proof Hy0 as Hy0'. apply eqb_neq in Hy0'. rewrite Hy0'.
    apply leb_gt in Hy. rewrite Hy. cbn [orb].
    apply f_equal. field. auto.
Qed.

Lemma birdsFor_invert i c t w b :
  sn2HarvestBirdAvgWeight i = Some w -> w <> 0 ->
  invertSn3ToSn1 b i c = Some t ->
  birdsFor i c t w = Some b.
Proof.
  intros H2 Hw. unfold birdsFor, invertSn3ToSn1. rewrite H2.
  pose proof Hw as Hw'. apply eqb_neq in Hw'. rewrite Hw'.
  pose proof n1000_neq_0. pose proof n100_neq_0.
  destruct (unitsMode c).
  - intros [= <-]. apply f_equal. field. auto.
  - intros [= <-]. apply f_equal. field. auto.
  - destruct (useYield c); [|discriminate].
    destruct (yieldPercent i) as [y|]; [|discriminate].
    destruct (y =? 0) eqn:Hy0; [discriminate|].
    destruct (y <=? 0) eqn:Hy; [discriminate|]. cbn [orb].
    intros [= <-]. unfold ltb. fold (leb y 0). rewrite Hy. cbn [negb].
    apply eqb_neq in Hy0. apply f_equal. field. auto.
Qed.



Lemma invert_Some_weight b i c t :
  invertSn3ToSn1 b i c = Some t ->
  exists w, sn2HarvestBirdAvgWeight i = Some w /\ w <> 0.
Proof.
  unfold invertSn3ToSn1.
  destruct (sn2HarvestBirdAvgWeight i) as [w|]; [|discriminate].
  destruct (w =? 0) eqn:E; [discriminate|]. apply eqb_neq in E.
  intros _. eauto.
Qed.





(** ** The forward chain, both ways *)

Lemma forward_chain i c b m s cap :
  value (stepSn3 i c) = Some b ->
  mortalityFraction i c = Some m -> 1 - m <> 0 ->
  value (stepSn7 i c) = Some s -> s <> 0 ->
  sn10FarmCapacity i = Some cap -> cap <> 0 ->
  let r := computeBroilerResults i c in
  sn3HarvestBirdsNumber r = Some b
  /\ sn5OverallPlacement r = Some (b / (1 - m))
  /\ sn7CyclesPerYear r = Some s
  /\ sn8HarvestPerCycle r = Some (b / s)
  /\ sn9PlacementPerCycle r = Some (b / s / (1 - m))
  /\ sn14NumberOfFarms r = Some (b / s / (1 - m) / cap).
Proof.
  intros H3 Hm Hm1 H7 Hs H10 Hc r. subst r. results.
  rewrite H3, Hm, H7.
  rewrite (stepSn5_value b m Hm1), (stepSn8_value b s Hs).
  rewrite (stepSn9_value (b / s) m Hm1).
  rewrite (stepSn14_value _ i cap H10 Hc).
  repeat split.
Qed.

Lemma backward_chain i c f :
  sn14NumberOfFarms (computeBroilerResults i c) = Some f ->
  exists b m s cap,
    value (stepSn3 i c) = Some b
    /\ mortalityFraction i c = Some m /\ 1 - m <> 0
    /\ value (stepSn7 i c) = Some s /\ s <> 0
    /\ sn10FarmCapacity i = Some cap /\ cap <> 0
    /\ f = b / s / (1 - m) / cap.
Proof.
  results. intros H14.
  destruct (stepSn14_Some _ _ _ H14) as (p & cap & H9 & H10 & Hc & ->).
  destruct (stepSn9_Some _ _ _ H9) as (h & m & H8 & Hm & Hm1 & ->).
  destruct (stepSn8_Some _ _ _ H8) as (b & s & H3 & H7 & Hs & ->).
  exists b, m, s, cap. repeat split; assumption.
Qed.

Lemma div100_nonneg (raw : Qc) : 0 <= raw / n100 -> 0 <= raw.
Proof.
  intros H. apply (Qcmult_lt_0_le_reg_r _ _ (/ n100)); [qc_eval|].
  rewrite Qcmult_0_l. exact H.
Qed.

(** The two normalizations of the mortality agree from 0 upwards. *)
Lemma mortalityFraction_eq_mFraction i c m :
  mFraction i c = Some m -> 0 <= m -> mortalityFraction i c = Some m.
Proof.
  unfold mFraction, mortalityFraction.
  destruct (sn4PlannedMortality i) as [raw|]; [|discriminate].
  destruct (mortalityAsPercent c); [|auto].
  intros [= <-] H0. destruct (raw <=? 0) eqn:E; [|reflexivity].
  apply leb_le in E. apply div100_nonneg in H0.
  rewrite (Qcle_antisym _ _ E H0). apply f_equal.
  unfold Qcdiv. now rewrite Qcmult_0_l.
Qed.

Lemma one_minus_pos (m : Qc) : m < 1 -> 0 < 1 - m.
Proof. intros H. exact (proj1 (Qclt_minus_iff m 1) H). Qed.

(** What [makeRowForFarms] returns: the skipped row, or the computed one
    with everything its guard has established. *)
Lemma makeRowForFarms_cases i c r label farms :
  makeRowForFarms i c r label farms = skippedRow label farms
  \/ exists f cap m s,
       farms = Some f /\ sn10FarmCapacity i = Some cap
       /\ mFraction i c = Some m /\ sn7CyclesPerYear r = Some s
       /\ 0 < f /\ 0 < cap /\ 0 <= m /\ m < 1 /\ 0 < s
       /\ makeRowForFarms i c r label farms =
            {| FarmRow.label := label;
               FarmRow.farms := Some f;
               FarmRow.sn1TargetBroilerMeat :=
                 invertSn3ToSn1 (f * cap * (1 - m) * s) i c;
               FarmRow.sn3HarvestBirdsNumber := Some (f * cap * (1 - m) * s);
               FarmRow.sn9PlacementPerCycle := Some (f * cap) |}.
Proof.
  unfold makeRowForFarms.
  destruct farms as [f|]; [|now left].
  destruct (sn10FarmCapacity i) as [cap|]; [|now left].
  destruct (mFraction i c) as [m|]; [|now left].
  destruct (sn7CyclesPerYear r) as [s|]; [|now left].
  destruct (negb (Number_isFinite f) || (f <=? 0) || (cap <=? 0)
            || (m <? 0) || (1 <=? m) || (s <=? 0)) eqn:G; [now left|].
  right. rewrite !orb_false_iff in G.
  destruct G as [[[[[_ Gf] Gc] Gm0] Gm1] Gs].
  apply leb_gt in Gf, Gc, Gs, Gm1. apply ltb_ge in Gm0.
  exists f, cap, m, s. repeat split; assumption.
Qed.

Lemma base_row_fields (i : BroilerInputs) (c : BroilerConfig) :
  let r := computeBroilerResults i c in
  let row := makeRowForFarms i c r "Base (exact farms)" (sn14NumberOfFarms r) in
  rowComputable i c r (sn14NumberOfFarms r) ->
  FarmRow.farms row = sn14NumberOfFarms r
  /\ FarmRow.sn9PlacementPerCycle row = sn9PlacementPerCycle r
  /\ FarmRow.sn3HarvestBirdsNumber row = sn3HarvestBirdsNumber r
  /\ FarmRow.sn1TargetBroilerMeat row = sn1TargetBroilerMeat i.
Proof.
  intros r row ((f & H14 & Hf) & (cap & H10 & Hc) & (m & Hm & Hm0 & Hm1)
                & (s & H7 & Hs)).
  subst row.
  destruct (backward_chain i c f H14)
    as (b & m' & s' & cap' & H3 & Hm' & Hm1' & H7' & Hs' & H10' & Hc' & Ef).
  rewrite (mortalityFraction_eq_mFraction i c m Hm Hm0) in Hm'.
  injection Hm' as <-. rewrite H10 in H10'. injection H10' as <-.
  destruct (forward_chain i c b m s' cap H3
              (mortalityFraction_eq_mFraction i c m Hm Hm0) Hm1' H7' Hs'
              H10 Hc') as (R3 & _ & R7 & _ & R9 & _).
  fold r in R3, R7, R9. rewrite R7 in H7. injection H7 as <-.
  rewrite H14.
  rewrite (makeRowForFarms_computed i c r _ f cap m s' H10 Hm R7
             Hf Hc Hm0 Hm1 Hs).
  cbn [FarmRow.farms FarmRow.sn9PlacementPerCycle FarmRow.sn3HarvestBirdsNumber
       FarmRow.sn1TargetBroilerMeat].
  assert (E9 : f * cap = b / s' / (1 - m)) by (rewrite Ef; field; auto).
  assert (E3 : f * cap * (1 - m) * s' = b) by (rewrite Ef; field; auto).
  rewrite E3, E9, R3, R9. repeat split.
  destruct (stepSn3_Some i c b H3) as (t & w & H1 & H2 & Hw & B).
  rewrite H1. exact (invert_birdsFor i c t w b H2 Hw B).
Qed.





(** ** Rounding brackets the base scenario *)

Lemma optLe_None_l b : optLe None b.
Proof. intros x y H. discriminate. Qed.

Lemma optLe_None_r a : optLe a None.
Proof. intros x y _ H. discriminate. Qed.

Lemma optLe_Some x y : x <= y -> optLe (Some x) (Some y).
Proof. intros H x' y' [= <-] [= <-]. exact H. Qed.

Lemma mult_le_pos (x y z : Qc) : x <= y -> 0 < z -> x * z <= y * z.
Proof. intros H Hz. apply Qcmult_le_compat_r; [exact H | now apply Qclt_le_weak]. Qed.

Lemma invertSn3ToSn1_mono i c w b1 b2 :
  sn2HarvestBirdAvgWeight i = Some w -> 0 < w -> b1 <= b2 ->
  optLe (invertSn3ToSn1 b1 i c) (invertSn3ToSn1 b2 i c).
Proof.
  intros H2 Hw Hb. unfold invertSn3ToSn1. rewrite H2.
  destruct (w =? 0); [apply optLe_None_l|].
  destruct (unitsMode c).
  - apply optLe_Some. unfold Qcdiv.
    apply mult_le_pos; [now apply mult_le_pos | qc_eval].
  - apply optLe_Some. now apply mult_le_pos.
  - destruct (useYield c); [|apply optLe_None_l].
    destruct (yieldPercent i) as [y|]; [|apply optLe_None_l].
    destruct (y =? 0); [apply optLe_None_l|].
    destruct (y <=? 0) eqn:Hy; [apply optLe_None_l|]. cbn [orb].
    apply leb_gt in Hy. apply optLe_Some. unfold Qcdiv.
    apply mult_le_pos; [|qc_eval].
    apply mult_le_pos; [now apply mult_le_pos | exact Hy].
Qed.

(** More farms never mean less placement, birds or (for a positive weight)
    target. *)
Lemma makeRowForFarms_mono i c r l1 l2 farms1 farms2 :
  optLe farms1 farms2 ->
  let row1 := makeRowForFarms i c r l1 farms1 in
  let row2 := makeRowForFarms i c r l2 farms2 in
  optLe (FarmRow.sn9PlacementPerCycle row1) (FarmRow.sn9PlacementPerCycle row2)
  /\ optLe (FarmRow.sn3HarvestBirdsNumber row1) (FarmRow.sn3HarvestBirdsNumber row2)
  /\ (forall w, sn2HarvestBirdAvgWeight i = Some w -> 0 < w ->
        optLe (FarmRow.sn1TargetBroilerMeat row1) (FarmRow.sn1TargetBroilerMeat row2)).
Proof.
  intros Hle row1 row2. subst row1 row2.
  destruct (makeRowForFarms_cases i c r l1 farms1)
    as [-> | (f1 & cap & m & s & -> & H10 & Hm & H7 & Hf1 & Hc & Hm0 & Hm1
              & Hs & ->)];
    [repeat split; intros; apply optLe_None_l|].
  destruct (makeRowForFarms_cases i c r l2 farms2)
    as [-> | (f2 & cap' & m' & s' & -> & H10' & Hm' & H7' & Hf2 & _ & _ & _
              & _ & ->)];
    [repeat split; intros; apply optLe_None_r|].
  rewrite H10 in H10'. injection H10' as <-.
  rewrite Hm in Hm'. injection Hm' as <-.
  rewrite H7 in H7'. injection H7' as <-.
  assert (Hff : f1 <= f2) by (apply (Hle f1 f2); reflexivity).
  cbn [FarmRow.sn9PlacementPerCycle FarmRow.sn3HarvestBirdsNumber
       FarmRow.sn1TargetBroilerMeat].
  assert (H9 : f1 * cap <= f2 * cap) by now apply mult_le_pos.
  assert (H3 : f1 * cap * (1 - m) * s <= f2 * cap * (1 - m) * s).
  { apply mult_le_pos; [|exact Hs].
    apply mult_le_pos; [exact H9 | now apply one_minus_pos]. }
  repeat split.
  - now apply optLe_Some.
  - now apply optLe_Some.
  - intros w H2 Hw. now apply (invertSn3ToSn1_mono i c w).
Qed.

Lemma Math_floor_le (x : Qc) : Math_floor x <= x.
Proof. apply Math_floor_spec. Qed.

Lemma Math_ceil_ge (x : Qc) : x <= Math_ceil x.
Proof. apply Math_ceil_spec. Qed.

(** X5. When the base row passes the guard, so does the rounded-up row,
    and the three rows are ordered: farms, placement per cycle and birds of
    the floored row (where it has them) are at most the base row's, which
    are at most the rounded-up row's; with a positive weight the same holds
    for the back-solved targets.  The floored and rounded-up values shown
    as a range do bracket the base value. *)
Theorem scenario_rows_bracket_base (i : BroilerInputs) (c : BroilerConfig)
  (r : BroilerResults) :
  rowComputable i c r (sn14NumberOfFarms r) ->
  exists base up fl,
    buildFarmScenarios i c r = [base; up; fl]
    /\ FarmRow.sn9PlacementPerCycle base <> None
    /\ FarmRow.sn9PlacementPerCycle up <> None
    /\ optLe (FarmRow.farms fl) (FarmRow.farms base)
    /\ optLe (FarmRow.farms base) (FarmRow.farms up)
    /\ optLe (FarmRow.sn9PlacementPerCycle fl) (FarmRow.sn9PlacementPerCycle base)
    /\ optLe (FarmRow.sn9PlacementPerCycle base) (FarmRow.sn9PlacementPerCycle up)
    /\ optLe (FarmRow.sn3HarvestBirdsNumber fl) (FarmRow.sn3HarvestBirdsNumber base)
    /\ optLe (FarmRow.sn3HarvestBirdsNumber base) (FarmRow.sn3HarvestBirdsNumber up)
    /\ (forall w, sn2HarvestBirdAvgWeight i = Some w -> 0 < w ->
          optLe (FarmRow.sn1TargetBroilerMeat fl) (FarmRow.sn1TargetBroilerMeat base)
          /\ optLe (FarmRow.sn1TargetBroilerMeat base)
               (FarmRow.sn1TargetBroilerMeat up)).
Proof.
  intros ((f & H14 & Hf) & (cap & H10 & Hc) & (m & Hm & Hm0 & Hm1)
          & (s & H7 & Hs)).
  do 3 eexists. split; [reflexivity|].
  rewrite H14. cbn [option_map].
  assert (Hup : 0 < Math_ceil f)
    by exact (Qclt_le_trans _ _ _ Hf (Math_ceil_ge f)).
  assert (Lfl : optLe (Some (Math_floor f)) (Some f))
    by apply optLe_Some, Math_floor_le.
  assert (Lup : optLe (Some f) (Some (Math_ceil f)))
    by apply optLe_Some, Math_ceil_ge.
  destruct (makeRowForFarms_mono i c r "Floored farms" "Base (exact farms)"
              _ _ Lfl) as (F9 & F3 & F1).
  destruct (makeRowForFarms_mono i c r "Base (exact farms)" "Rounded up farms"
              _ _ Lup) as (U9 & U3 & U1).
  rewrite !makeRowForFarms_farms.
  repeat apply conj; try assumption.
  - rewrite (makeRowForFarms_computed i c r _ f cap m s H10 Hm H7
               Hf Hc Hm0 Hm1 Hs). discriminate.
  - rewrite (makeRowForFarms_computed i c r _ _ cap m s H10 Hm H7
               Hup Hc Hm0 Hm1 Hs). discriminate.
  - intros w H2 Hw. split; [now apply (F1 w) | now apply (U1 w)].
Qed.

Lemma scenario_rows_bracket_base_witness :
  exists base up fl,
    buildFarmScenarios sampleInputs sampleConfig
      (computeBroilerResults sampleInputs sampleConfig) = [base; up; fl]
    /\ optLe (FarmRow.sn1TargetBroilerMeat fl) (FarmRow.sn1TargetBroilerMeat base)
    /\ optLe (FarmRow.sn1TargetBroilerMeat base) (FarmRow.sn1TargetBroilerMeat up).
Proof.
  destruct (scenario_rows_bracket_base sampleInputs sampleConfig
              (computeBroilerResults sampleInputs sampleConfig))
    as (base & up & fl & E & _ & _ & _ & _ & _ & _ & _ & _ & H1).
  - unfold rowComputable. repeat apply conj.
    + exists (lit 21000 15257). split; qc_eval.
    + exists (lit 20000 1). split; [reflexivity | qc_eval].
    + exists (lit 5 100). split; [qc_eval | split; qc_eval].
    + exists (lit 365 42). split; qc_eval.
  - exists base, up, fl. split; [exact E|].
    apply (H1 (lit 22 10)); [reflexivity | qc_eval].
Defined.

(** ** Results that hang together *)



Lemma stepSn5_clear b m :
  raises (stepSn5 (Some b) (Some m)) = false ->
  value (stepSn5 (Some b) (Some m)) = Some (b / (1 - m)).
Proof.
  unfold stepSn5. cbv zeta. destruct (1 - m =? 0); [discriminate | reflexivity].
Qed.

Lemma stepSn7_clear i c d :
  sn6CycleTimeDays i = Some d -> raises (stepSn7 i c) = false ->
  exists s, value (stepSn7 i c) = Some s.
Proof.
  intros H. unfold stepSn7. rewrite H. cbv zeta.
  destruct (d =? 0); [discriminate | eexists; reflexivity].
Qed.

Lemma stepSn8_clear b s :
  raises (stepSn8 (Some b) (Some s)) = false ->
  value (stepSn8 (Some b) (Some s)) = Some (b / s).
Proof.
  unfold stepSn8. destruct (s =? 0); [discriminate | reflexivity].
Qed.

Lemma stepSn9_clear h m :
  raises (stepSn9 (Some h) (Some m)) = false ->
  value (stepSn9 (Some h) (Some m)) = Some (h / (1 - m)).
Proof.
  unfold stepSn9. cbv zeta. destruct (1 - m =? 0); [discriminate | reflexivity].
Qed.

Lemma stepSn13_clear i cap h a :
  sn10FarmCapacity i = Some cap -> sn11NumberOfHouses i = Some h ->
  sn12HouseArea i = Some a -> raises (stepSn13 i) = false ->
  value (stepSn13 i) = Some (cap / (h * a)).
Proof.
  intros H10 H11 H12. unfold stepSn13. rewrite H10, H11, H12. cbv zeta.
  destruct (h * a =? 0); [discriminate | reflexivity].
Qed.

Lemma stepSn14_clear p i cap :
  sn10FarmCapacity i = Some cap -> raises (stepSn14 (Some p) i) = false ->
  value (stepSn14 (Some p) i) = Some (p / cap).
Proof.
  intros H10. unfold stepSn14. rewrite H10.
  destruct (cap =? 0); [discriminate | reflexivity].
Qed.

Lemma stepSn3_clear i c t w :
  sn1TargetBroilerMeat i = Some t -> sn2HarvestBirdAvgWeight i = Some w ->
  raises (stepSn3 i c) = false ->
  value (stepSn3 i c) = birdsFor i c t w.
Proof.
  intros H1 H2. unfold stepSn3. rewrite H1, H2.
  destruct (w =? 0); [discriminate|].
  destruct (birdsFor i c t w); reflexivity.
Qed.



(** ** Validation and the division flag *)

Lemma setError_not_nil errors key message : setError errors key message <> [].
Proof.
  unfold setError. destruct (existsb _ errors) eqn:E.
  - destruct errors; [discriminate E | discriminate].
  - destruct errors; discriminate.
Qed.

Lemma if_setError_nil (b : bool) errors key message :
  (if b then setError errors key message else errors) = [] ->
  b = false /\ errors = [].
Proof.
  destruct b; [|auto]. intros H. now apply setError_not_nil in H.
Qed.

Lemma positive_check_nil (value : option number) errors key message :
  match value with
  | Some v => if v <=? 0 then setError errors key message else errors
  | None => errors
  end = [] ->
  errors = [] /\ forall v, value = Some v -> 0 < v.
Proof.
  destruct value as [v|].
  - intros H. apply if_setError_nil in H. destruct H as [H ->].
    split; [reflexivity|]. intros v' [= <-]. now apply leb_gt.
  - intros ->. split; [reflexivity | discriminate].
Qed.

Lemma yield_check_nil (u : bool) (yo : option number) errors key message :
  (if u then
     match yo with
     | None => setError errors key message
     | Some y =>
         if (y <=? 0) || (n100 <? y) then setError errors key message
         else errors
     end
   else errors) = [] ->
  errors = []
  /\ (u = true -> exists y, yo = Some y /\ 0 < y /\ y <= n100).
Proof.
  destruct u; [|intros ->; split; [reflexivity | discriminate]].
  destruct yo as [y|]; [|intros H; now apply setError_not_nil in H].
  intros H. apply if_setError_nil in H. destruct H as [H ->].
  apply orb_false_iff in H. destruct H as [Hy0 Hy1].
  split; [reflexivity|]. intros _. exists y. split; [reflexivity|]. split.
  - now apply leb_gt.
  - now apply ltb_ge.
Qed.

Lemma mortality_check_nil (mo : option number) (percent : bool) errors
  key message1 message2 :
  match mo with
  | Some m =>
      if percent then
        if (m <? 0) || (n100 <=? m) then setError errors key message1
        else errors
      else if (m <? 0) || (1 <=? m) then setError errors key message2
      else errors
  | None => errors
  end = [] ->
  errors = []
  /\ (forall m, mo = Some m ->
        0 <= m /\ m < (if percent then n100 else 1)).
Proof.
  destruct mo as [m|]; [|intros ->; split; [reflexivity | discriminate]].
  destruct percent; intros H; apply if_setError_nil in H;
    destruct H as [H ->]; apply orb_false_iff in H; destruct H as [Ha Hb];
    (split; [reflexivity|]); intros m' [= <-];
    (split; [now apply ltb_ge | now apply leb_gt]).
Qed.

Lemma name_check_nil (trimmed : jsstring) key message :
  match trimmed with
  | [] => setError [] key message
  | _ :: _ => []
  end = [] ->
  trimmed <> [].
Proof.
  destruct trimmed; [|discriminate].
  intros H. now apply setError_not_nil in H.
Qed.

(** What a scenario that passes [validate] satisfies. *)
Lemma validate_passes scenario :
  snd (validate scenario) = true ->
  let i := Scenario.inputs scenario in
  let c := Scenario.config scenario in
  trim (Scenario.name scenario) <> []
  /\ (forall m, sn4PlannedMortality i = Some m ->
        0 <= m /\ m < (if mortalityAsPercent c then n100 else 1))
  /\ (forall d, sn6CycleTimeDays i = Some d -> 0 < d)
  /\ (forall cap, sn10FarmCapacity i = Some cap -> 0 < cap)
  /\ (forall h, sn11NumberOfHouses i = Some h -> 0 < h)
  /\ (forall a, sn12HouseArea i = Some a -> 0 < a)
  /\ (useYield c = true ->
        exists y, yieldPercent i = Some y /\ 0 < y /\ y <= n100).
Proof.
  unfold validate. cbv zeta. cbn [snd fold_left fst].
  match goal with
  | |- match ?E with [] => true | _ :: _ => false end = true -> _ =>
      intros H; assert (H' : E = []) by (destruct E; [reflexivity | discriminate]);
      clear H
  end.
  apply yield_check_nil in H'. destruct H' as [H4 PY].
  apply positive_check_nil in H4. destruct H4 as [H3 P12].
  apply positive_check_nil in H3. destruct H3 as [H2 P11].
  apply positive_check_nil in H2. destruct H2 as [H1 P10].
  apply positive_check_nil in H1. destruct H1 as [H0 P6].
  apply mortality_check_nil in H0. destruct H0 as [HN PM].
  apply name_check_nil in HN.
  repeat split; try assumption; now apply PM.
Qed.

Lemma div100_range (raw : Qc) :
  0 <= raw -> raw < n100 -> 0 <= raw / n100 /\ raw / n100 < 1.
Proof.
  intros H0 H1. unfold Qcdiv. split.
  - rewrite <- (Qcmult_0_l (/ n100)).
    apply Qcmult_le_compat_r; [exact H0 | qc_eval].
  - rewrite <- (Qcmult_inv_r n100 n100_neq_0).
    apply Qcmult_lt_compat_r; [qc_eval | exact H1].
Qed.

Lemma page_mortalityFraction_is_mFraction scenario :
  Page.mortalityFraction scenario
  = mFraction (Scenario.inputs scenario) (Scenario.config scenario).
Proof. reflexivity. Qed.

Lemma mFraction_in_range i c :
  (forall m, sn4PlannedMortality i = Some m ->
     0 <= m /\ m < (if mortalityAsPercent c then n100 else 1)) ->
  forall f, mFraction i c = Some f -> 0 <= f /\ f < 1.
Proof.
  intros PM f. unfold mFraction.
  destruct (sn4PlannedMortality i) as [raw|]; [|discriminate].
  destruct (PM raw eq_refl) as [H0 H1].
  destruct (mortalityAsPercent c); intros [= <-].
  - now apply div100_range.
  - auto.
Qed.



(** ** The columns of the results table *)

Lemma column_sn14_of_row scenario c r label farms :
  Calc.sn14
    (Page.buildCalcForScenario scenario
       (Some (makeRowForFarms (Scenario.inputs scenario) c r label farms)))
  = farms.
Proof.
  unfold Page.buildCalcForScenario. cbv zeta. cbn [Calc.sn14 Page.field].
  destruct (makeRowForFarms_cases (Scenario.inputs scenario) c r label farms)
    as [-> | (f & cap & m & s & -> & H10 & _ & _ & _ & Hc & _ & _ & _ & ->)].
  - cbn [skippedRow FarmRow.sn9PlacementPerCycle FarmRow.farms].
    destruct farms; reflexivity.
  - cbn [FarmRow.sn9PlacementPerCycle FarmRow.farms]. rewrite H10.
    pose proof (pos_neq_0 _ Hc). apply ltb_lt in Hc. rewrite Hc.
    apply f_equal. field. auto.
Qed.


(** The forward chain on a computed row's target. *)
Lemma forward_of_row_target i c f cap m s t' :
  sn10FarmCapacity i = Some cap -> mFraction i c = Some m ->
  sn7CyclesPerYear (computeBroilerResults i c) = Some s ->
  0 < cap -> 0 <= m -> m < 1 -> 0 < s ->
  invertSn3ToSn1 (f * cap * (1 - m) * s) i c = Some t' ->
  let b := f * cap * (1 - m) * s in
  let r' := computeBroilerResults (withTarget (Some t') i) c in
  sn3HarvestBirdsNumber r' = Some b
  /\ sn5OverallPlacement r' = Some (b / (1 - m))
  /\ sn7CyclesPerYear r' = Some s
  /\ sn8HarvestPerCycle r' = Some (b / s)
  /\ sn9PlacementPerCycle r' = Some (b / s / (1 - m))
  /\ sn14NumberOfFarms r' = Some (b / s / (1 - m) / cap).
Proof.
  intros H10 Hm H7 Hc Hm0 Hm1 Hs Hinv b r'.
  destruct (invert_Some_weight _ i c t' Hinv) as (w & H2 & Hw).
  pose proof (birdsFor_invert i c t' w _ H2 Hw Hinv) as B.
  assert (H3 : value (stepSn3 (withTarget (Some t') i) c) = Some b).
  { destruct (stepSn3_birds (withTarget (Some t') i) c t' w eq_refl H2 Hw)
      as [-> _]. exact B. }
  assert (H7' : value (stepSn7 (withTarget (Some t') i) c) = Some s).
  { revert H7. results. auto. }
  exact (forward_chain (withTarget (Some t') i) c b m s cap H3
           (mortalityFraction_eq_mFraction i c m Hm Hm0)
           (pos_neq_0 _ (one_minus_pos m Hm1)) H7' (pos_neq_0 _ Hs)
           H10 (pos_neq_0 _ Hc)).
Qed.



(** ** The CSV export *)

Lemma doubleQuotes_sep (s1 s2 rest1 rest2 : jsstring) :
  (forall tl, rest1 <> Page.doubleQuote :: tl) ->
  (forall tl, rest2 <> Page.doubleQuote :: tl) ->
  Page.doubleQuotes s1 ++ Page.doubleQuote :: rest1
  = Page.doubleQuotes s2 ++ Page.doubleQuote :: rest2 ->
  s1 = s2 /\ rest1 = rest2.
Proof.
  intros N1 N2. revert s2.
  induction s1 as [|c1 s1 IH]; intros [|c2 s2]; cbn [Page.doubleQuotes app].
  - intros [= ->]. auto.
  - destruct (N.eqb c2 Page.doubleQuote) eqn:E2; cbn [app].
    + intros [= H]. now apply N1 in H.
    + intros [= H _]. apply N.eqb_neq in E2. congruence.
  - destruct (N.eqb c1 Page.doubleQuote) eqn:E1; cbn [app].
    + intros [= H]. symmetry in H. now apply N2 in H.
    + intros [= H _]. apply N.eqb_neq in E1. congruence.
  - destruct (N.eqb c1 Page.doubleQuote) eqn:E1,
             (N.eqb c2 Page.doubleQuote) eqn:E2; cbn [app].
    + apply N.eqb_eq in E1, E2. subst c1 c2.
      intros [= H]. destruct (IH _ H) as [-> ->]. auto.
    + intros [= H _]. apply N.eqb_neq in E2. congruence.
    + intros [= H _]. apply N.eqb_neq in E1. congruence.
    + intros [= -> H]. destruct (IH _ H) as [-> ->]. auto.
Qed.

Lemma escapeCsv_sep (s1 s2 rest1 rest2 : jsstring) :
  (forall tl, rest1 <> Page.doubleQuote :: tl) ->
  (forall tl, rest2 <> Page.doubleQuote :: tl) ->
  Page.escapeCsv s1 ++ rest1 = Page.escapeCsv s2 ++ rest2 ->
  s1 = s2 /\ rest1 = rest2.
Proof.
  intros N1 N2. unfold Page.escapeCsv. cbn [app].
  rewrite <- !app_assoc. cbn [app]. intros [= H].
  exact (doubleQuotes_sep s1 s2 rest1 rest2 N1 N2 H).
Qed.

(** What may follow a row: the end of the text, or a CR. *)
Lemma row_end_no_quote (rest : jsstring) :
  rest = [] \/ (exists tl, rest = Page.CR :: tl) ->
  forall tl, rest <> Page.doubleQuote :: tl.
Proof. intros [-> | (tl' & ->)] tl; discriminate. Qed.

Lemma escaped_row_no_end (c : jsstring) (cs : list jsstring)
  (rest rest' : jsstring) :
  rest = [] \/ (exists tl, rest = Page.CR :: tl) ->
  rest <> Page.join [Page.comma] (map Page.escapeCsv (c :: cs)) ++ rest'.
Proof.
  cbn [map Page.join]. unfold Page.escapeCsv.
  destruct cs; cbn [map app]; intros [-> | (tl & ->)]; discriminate.
Qed.

Lemma csv_row_sep (cells1 cells2 : list jsstring) (rest1 rest2 : jsstring) :
  rest1 = [] \/ (exists tl, rest1 = Page.CR :: tl) ->
  rest2 = [] \/ (exists tl, rest2 = Page.CR :: tl) ->
  Page.join [Page.comma] (map Page.escapeCsv cells1) ++ rest1
  = Page.join [Page.comma] (map Page.escapeCsv cells2) ++ rest2 ->
  cells1 = cells2 /\ rest1 = rest2.
Proof.
  intros R1 R2. revert cells2.
  induction cells1 as [|c1 cs1 IH]; intros [|c2 cs2].
  - cbn [map Page.join app]. auto.
  - intros H. now apply (escaped_row_no_end c2 cs2 rest1 rest2 R1) in H.
  - intros H. symmetry in H.
    now apply (escaped_row_no_end c1 cs1 rest2 rest1 R2) in H.
  - cbn [map Page.join].
    destruct cs1 as [|c1' cs1], cs2 as [|c2' cs2]; cbn [map].
    + intros H.
      destruct (escapeCsv_sep c1 c2 rest1 rest2 (row_end_no_quote _ R1)
                  (row_end_no_quote _ R2) H) as [-> ->]. auto.
    + rewrite <- !app_assoc. cbn [app]. intros H.
      apply escapeCsv_sep in H;
        [|now apply row_end_no_quote | intros tl; discriminate].
      destruct H as [_ H]. destruct R1 as [-> | (tl & ->)]; discriminate.
    + rewrite <- !app_assoc. cbn [app]. intros H.
      apply escapeCsv_sep in H;
        [|intros tl; discriminate | now apply row_end_no_quote].
      destruct H as [_ H]. destruct R2 as [-> | (tl & ->)]; discriminate.
    + rewrite <- !app_assoc. cbn [app]. intros H.
      apply escapeCsv_sep in H; [|intros tl; discriminate..].
      destruct H as [-> H]. injection H as H.
      destruct (IH (c2' :: cs2) H) as [E ->]. now rewrite E.
Qed.

(** X12. The CSV text determines the table: two non-empty lists of rows
    with the same [csvContent] are the same rows with the same cells,
    whatever the cells contain (double quotes, commas, line breaks). *)
Theorem csvContent_injective (rows1 rows2 : list (list jsstring)) :
  rows1 <> [] -> rows2 <> [] ->
  Page.csvContent rows1 = Page.csvContent rows2 ->
  rows1 = rows2.
Proof.
  unfold Page.csvContent. revert rows2.
  induction rows1 as [|r1 rs1 IH]; intros [|r2 rs2] H1 H2;
    try contradiction.
  clear H1 H2. cbn [map Page.join].
  destruct rs1 as [|r1' rs1], rs2 as [|r2' rs2]; cbn [map].
  - intros H.
    destruct (csv_row_sep r1 r2 [] [] (or_introl eq_refl) (or_introl eq_refl))
      as [-> _]; [now rewrite !app_nil_r | reflexivity].
  - intros H.
    destruct (csv_row_sep r1 r2 [] (Page.CR :: Page.LF ::
                Page.join [Page.CR; Page.LF]
                  (map (fun row => Page.join [Page.comma]
                                     (map Page.escapeCsv row)) (r2' :: rs2)))
                (or_introl eq_refl) (or_intror (ex_intro _ _ eq_refl)))
      as [_ E]; [rewrite app_nil_r; exact H | discriminate E].
  - intros H.
    destruct (csv_row_sep r1 r2 (Page.CR :: Page.LF ::
                Page.join [Page.CR; Page.LF]
                  (map (fun row => Page.join [Page.comma]
                                     (map Page.escapeCsv row)) (r1' :: rs1)))
                [] (or_intror (ex_intro _ _ eq_refl)) (or_introl eq_refl))
      as [_ E]; [rewrite app_nil_r; exact H | discriminate E].
  - intros H.
    destruct (csv_row_sep r1 r2 _ _ (or_intror (ex_intro _ _ eq_refl))
                (or_intror (ex_intro _ _ eq_refl)) H) as [-> E].
    injection E as E.
    rewrite (IH (r2' :: rs2)); [reflexivity | discriminate | discriminate
                               | exact E].
Qed.

Lemma csvContent_injective_witness :
  [[[80%N; 34%N]; [44%N]]; [[13%N; 10%N]]]
  = [[[80%N; 34%N]; [44%N]]; [[13%N; 10%N]]].
Proof.
  apply (csvContent_injective
           [[[80%N; 34%N]; [44%N]]; [[13%N; 10%N]]]
           [[[80%N; 34%N]; [44%N]]; [[13%N; 10%N]]]);
    [discriminate | discriminate | reflexivity].
Defined.

(** ** A validated scenario, end to end *)

Lemma Qc_mult_pos (x y : Qc) : 0 < x -> 0 < y -> 0 < x * y.
Proof.
  intros Hx Hy. rewrite <- (Qcmult_0_l y). now apply Qcmult_lt_compat_r.
Qed.

Lemma Qc_inv_pos (x : Qc) : 0 < x -> 0 < / x.
Proof.
  unfold Qclt, Qcinv. cbn [this Q2Qc]. intros H.
  rewrite !Qred_correct. apply Qinv_lt_0_compat. exact H.
Qed.

Lemma Qc_div_pos (x y : Qc) : 0 < x -> 0 < y -> 0 < x / y.
Proof. intros Hx Hy. apply Qc_mult_pos; [exact Hx | now apply Qc_inv_pos]. Qed.

Lemma Math_floor_nonneg (x : Qc) : 0 <= x -> 0 <= Math_floor x.
Proof.
  unfold Qcle, Math_floor. cbn [this Q2Qc]. rewrite !Qred_correct.
  intros H. apply Qfloor_resp_le in H.
  change (Qfloor 0) with 0%Z in H.
  change 0%Q with (inject_Z 0). now rewrite <- Zle_Qle.
Qed.

Lemma birdsFor_pos i c t w b :
  0 < t -> 0 < w -> birdsFor i c t w = Some b -> 0 < b.
Proof.
  intros Ht Hw. unfold birdsFor.
  assert (K : 0 < n1000) by qc_eval. assert (H : 0 < n100) by qc_eval.
  destruct (unitsMode c).
  - intros [= <-]. apply Qc_div_pos; [now apply Qc_mult_pos | exact Hw].
  - intros [= <-]. now apply Qc_div_pos.
  - destruct (useYield c); [|discriminate].
    destruct (yieldPercent i) as [y|]; [|discriminate].
    destruct (0 <? y) eqn:Hy; [|discriminate]. apply ltb_lt in Hy.
    intros [= <-]. apply Qc_div_pos; [|exact Hw].
    apply Qc_mult_pos; [now apply Qc_mult_pos | now apply Qc_div_pos].
Qed.

Lemma stepSn7_nonneg i c d s :
  sn6CycleTimeDays i = Some d -> 0 < d ->
  value (stepSn7 i c) = Some s -> 0 <= s.
Proof.
  intros H6 Hd.
  destruct (stepSn7_cycles i c d H6 (pos_neq_0 d Hd)) as [-> _].
  cbv zeta. intros [= <-].
  assert (Q : 0 < (if useLeapYearCycles c then n365_25 else n365) / d).
  { apply Qc_div_pos; [|exact Hd]. destruct (useLeapYearCycles c); qc_eval. }
  destruct (useFullCyclesOnly c).
  - apply Math_floor_nonneg. now apply Qclt_le_weak.
  - now apply Qclt_le_weak.
Qed.



(** ** What an out-of-range mortality does *)



(** ** The cycle toggles and the farms needed *)

Lemma inv_antitone (s1 s2 : Qc) : 0 < s1 -> s1 <= s2 -> / s2 <= / s1.
Proof.
  intros H1 H12.
  assert (H2 : 0 < s2) by exact (Qclt_le_trans _ _ _ H1 H12).
  apply (Qcmult_lt_0_le_reg_r _ _ (s1 * s2)); [now apply Qc_mult_pos|].
  pose proof (pos_neq_0 _ H1). pose proof (pos_neq_0 _ H2).
  replace (/ s2 * (s1 * s2)) with s1 by (field; auto).
  replace (/ s1 * (s1 * s2)) with s2 by (field; auto).
  exact H12.
Qed.

Lemma farms_antitone_in_cycles (b s1 s2 k cap : Qc) :
  0 <= b -> 0 < s1 -> s1 <= s2 -> 0 < k -> 0 < cap ->
  b / s2 / k / cap <= b / s1 / k / cap.
Proof.
  intros Hb H1 H12 Hk Hc. unfold Qcdiv.
  apply mult_le_pos; [|now apply Qc_inv_pos].
  apply mult_le_pos; [|now apply Qc_inv_pos].
  rewrite (Qcmult_comm b (/ s2)), (Qcmult_comm b (/ s1)).
  apply Qcmult_le_compat_r; [now apply inv_antitone | exact Hb].
Qed.

Lemma Math_floor_mono (x y : Qc) : x <= y -> Math_floor x <= Math_floor y.
Proof.
  unfold Qcle, Math_floor. cbn [this Q2Qc]. rewrite !Qred_correct.
  intros H. rewrite <- Zle_Qle. now apply Qfloor_resp_le.
Qed.

(** Farms needed under given cycle toggles, read back from the results. *)
Lemma farms_under_toggles i c whole leap b m d cap f :
  sn3HarvestBirdsNumber (computeBroilerResults i c) = Some b ->
  mortalityFraction i c = Some m ->
  sn6CycleTimeDays i = Some d -> 0 < d ->
  sn10FarmCapacity i = Some cap ->
  sn14NumberOfFarms
    (computeBroilerResults i (withCycleToggles whole leap c)) = Some f ->
  let q := (if leap then n365_25 else n365) / d in
  let s := if whole then Math_floor q else q in
  0 < s /\ f = b / s / (1 - m) / cap.
Proof.
  intros H3 Hm H6 Hd H10 H14 q s.
  destruct (backward_chain _ _ _ H14)
    as (b' & m' & s' & cap' & H3' & Hm' & _ & H7' & Hs' & H10' & _ & ->).
  revert H3. results. intros H3.
  change (value (stepSn3 i c) = Some b') in H3'.
  change (mortalityFraction i c = Some m') in Hm'.
  rewrite H3 in H3'. injection H3' as <-.
  rewrite Hm in Hm'. injection Hm' as <-.
  rewrite H10 in H10'. injection H10' as <-.
  pose proof (stepSn7_nonneg i _ d s' H6 Hd H7') as Hs0.
  destruct (stepSn7_cycles i (withCycleToggles whole leap c) d H6
              (pos_neq_0 d Hd)) as [V7 _].
  rewrite H7' in V7. injection V7 as ->.
  split; [|reflexivity].
  destruct (Qcle_lt_or_eq _ _ Hs0) as [H | H]; [exact H|].
  exfalso. apply Hs'. symmetry. exact H.
Qed.

(** X15. With non-negative birds, positive cycle days and capacity and a
    mortality fraction below 1, the cycle toggles move the farms needed one
    way only: counting whole cycles only never lowers them, and counting
    365.25 days a year never raises them (wherever both results have a
    farm count). *)
Theorem cycle_toggles_move_farms_one_way (i : BroilerInputs)
  (c : BroilerConfig) (b m d cap : number) :
  sn3HarvestBirdsNumber (computeBroilerResults i c) = Some b -> 0 <= b ->
  mortalityFraction i c = Some m -> m < 1 ->
  sn6CycleTimeDays i = Some d -> 0 < d ->
  sn10FarmCapacity i = Some cap -> 0 < cap ->
  let farms whole leap :=
    sn14NumberOfFarms
      (computeBroilerResults i (withCycleToggles whole leap c)) in
  (forall leap, optLe (farms false leap) (farms true leap))
  /\ (forall whole, optLe (farms whole true) (farms whole false)).
Proof.
  intros H3 Hb Hm Hm1 H6 Hd H10 Hc farms. subst farms. cbv beta.
  pose proof (one_minus_pos m Hm1) as Hk.
  assert (Q : n365 / d <= n365_25 / d).
  { unfold Qcdiv. apply mult_le_pos; [qc_eval | now apply Qc_inv_pos]. }
  split.
  - intros leap x y Hx Hy.
    destruct (farms_under_toggles i c false leap b m d cap x
                H3 Hm H6 Hd H10 Hx) as [_ ->].
    destruct (farms_under_toggles i c true leap b m d cap y
                H3 Hm H6 Hd H10 Hy) as [Hs ->].
    cbv zeta in Hs |- *.
    apply farms_antitone_in_cycles; try assumption. apply Math_floor_le.
  - intros whole x y Hx Hy.
    destruct (farms_under_toggles i c whole true b m d cap x
                H3 Hm H6 Hd H10 Hx) as [_ ->].
    destruct (farms_under_toggles i c whole false b m d cap y
                H3 Hm H6 Hd H10 Hy) as [Hs ->].
    cbv zeta in Hs |- *.
    apply farms_antitone_in_cycles; try assumption.
    destruct whole; [now apply Math_floor_mono | exact Q].
Qed.

Lemma cycle_toggles_move_farms_one_way_witness :
  optLe
    (sn14NumberOfFarms
       (computeBroilerResults sampleInputs
          (withCycleToggles false false sampleConfig)))
    (sn14NumberOfFarms
       (computeBroilerResults sampleInputs
          (withCycleToggles true false sampleConfig))).
Proof.
  pose proof (cycle_toggles_move_farms_one_way sampleInputs sampleConfig
                (lit 2500000 11) (lit 5 100) (lit 42 1) (lit 20000 1)) as H.
  cbv zeta in H. apply H; try reflexivity; qc_eval.
Defined.

(** ** The page's functions on small inputs *)

Example escapeCsv_quote :
  Page.escapeCsv [80%N; 34%N; 81%N] = [34%N; 80%N; 34%N; 34%N; 81%N; 34%N].
Proof. reflexivity. Qed.

Example csvContent_two_rows :
  Page.csvContent [[[65%N]; [66%N]]; [[67%N]; []]]
  = [34%N; 65%N; 34%N; 44%N; 34%N; 66%N; 34%N; 13%N; 10%N;
     34%N; 67%N; 34%N; 44%N; 34%N; 34%N].
Proof. reflexivity. Qed.

Example validate_blank_name :
  validate (scenarioOf [32%N; 9%N; 160%N] sampleInputs sampleConfig)
  = ([("scenarioName"%string, "Scenario name is required."%string)], false).
Proof. reflexivity. Qed.

Example validate_sample :
  validate (scenarioOf [66%N] sampleInputs sampleConfig) = ([], true).
Proof. vm_compute. reflexivity. Qed.
